(** * TrackLightsController: the press-sequencing engine and its state store

    A shallow embedding of [state_manager.py] (class [StateManager]) and
    [gpio_controller.py] (class [GPIOController]) and the properties of the
    specification proved over it.

    Python objects are mutable and methods may raise, so every method is a
    computation in a small state-and-exception monad: it takes the state
    before the call and gives back an outcome (a returned value or a raised
    exception) together with the state after the call.  The state a method
    has reached when it raises is kept, as in Python.

    Calls to the logger have no effect on the state or on the results and
    are left out.  Real time is not modelled: a [time.sleep] is recorded in
    a trace of events, together with the writes to the GPIO pins. *)

From Stdlib Require Import ZArith QArith Lia Ascii.
From stdpp Require Import base option list strings gmap.

Local Open Scope string_scope.
Local Open Scope Z_scope.

(** ** Python values

    The values that [json.load] produces and [json.dump] consumes, and that
    the result dictionaries of the controller hold.  The payload of a float
    stands for its numeric value; no arithmetic on floats is needed.  JSON
    object keys are strings, so a [dict] read from a file is a finite map
    from strings. *)

#[local] Set Warnings "-register-all".
Inductive pyval : Type :=
  | PyNone
  | PyBool (b : bool)
  | PyInt (z : Z)
  | PyFloat (q : Q)
  | PyStr (s : string)
  | PyList (l : list pyval)
  | PyDict (d : gmap string pyval).

(** [isinstance(v, int)]: [bool] is a subclass of [int] in Python, so
    [True] and [False] are instances of [int] as well. *)
Definition isinstance_int (v : pyval) : bool :=
  match v with
  | PyInt _ | PyBool _ => true
  | _ => false
  end.

(** The integer an [int] instance denotes in a comparison or in arithmetic
    ([True] is 1 and [False] is 0). *)
Definition int_value (v : pyval) : option Z :=
  match v with
  | PyInt z => Some z
  | PyBool b => Some (Z.b2z b)
  | _ => None
  end.

(** ** Exceptions and the monad *)

Inductive exn : Type :=
  | KeyError
  | TypeError
  | AttributeError
  | OSError
  | JSONDecodeError.

Inductive outcome (A : Type) : Type :=
  | Return (a : A)
  | Raise (e : exn).
Arguments Return {A} a.
Arguments Raise {A} e.

Definition M (S A : Type) : Type := S → outcome A * S.

Module PyMonad.

Definition ret {S A} (a : A) : M S A := λ s, (Return a, s).

Definition bind {S A B} (m : M S A) (k : A → M S B) : M S B :=
  λ s, match m s with
       | (Return a, s') => k a s'
       | (Raise e, s') => (Raise e, s')
       end.

Definition raise {S A} (e : exn) : M S A := λ s, (Raise e, s).

Definition get {S} : M S S := λ s, (Return s, s).

Definition modify {S} (f : S → S) : M S unit := λ s, (Return tt, f s).

(** [try: body  except Exception: handler] *)
Definition try_except {S A} (body : M S A) (handler : exn → M S A) : M S A :=
  λ s, match body s with
       | (Return a, s') => (Return a, s')
       | (Raise e, s') => handler e s'
       end.

(** [for i in range(n): body i], counting [i] up from [i0]. *)
Fixpoint for_range {S} (n : nat) (i0 : Z) (body : Z → M S unit) : M S unit :=
  match n with
  | O => ret tt
  | S n' => bind (body i0) (λ _, for_range n' (i0 + 1) body)
  end.

End PyMonad.
Import PyMonad.

Declare Scope py_scope.
Delimit Scope py_scope with py.
Notation "x <- m ;; k" := (bind m (λ x, k))
  (at level 100, m at next level, right associativity) : py_scope.
Notation "m ;; k" := (bind m (λ _, k))
  (at level 100, right associativity) : py_scope.
Local Open Scope py_scope.

(** ** The world outside the process

    - [files]: the file system, a finite map from paths to contents.  The
      JSON codec is the [json] library's; a file is modelled by what
      [json.load] makes of it: a document, or text that does not parse.
    - [io_faults]: what the operating system will do on the coming fallible
      calls ([open], the write of [json.dump], [os.replace], [os.remove]),
      one entry per call, [true] for a call that raises [OSError]; calls
      beyond the end of the list succeed.
    - [events]: the GPIO writes and [time.sleep] calls made so far, oldest
      first.
    - [time_time], [datetime_now_isoformat]: the readings of the clock. *)

Inductive file_content : Type :=
  | NotJson (text : string)
  | Json (doc : pyval).

Inductive gpio_level : Type := LOW | HIGH.

Inductive io_event : Type :=
  | GpioOutput (pin : Z) (level : gpio_level)
  | TimeSleep (seconds : Q).

Record World : Type := mkWorld {
  files : gmap string file_content;
  io_faults : list bool;
  events : list io_event;
  GPIO_AVAILABLE : bool;
  time_time : Q;
  datetime_now_isoformat : string;
}.

Definition set_files (f : gmap string file_content → gmap string file_content)
    (w : World) : World :=
  mkWorld (f (files w)) (io_faults w) (events w) (GPIO_AVAILABLE w)
          (time_time w) (datetime_now_isoformat w).

Definition emit (ev : io_event) (w : World) : World :=
  mkWorld (files w) (io_faults w) (events w ++ [ev]) (GPIO_AVAILABLE w)
          (time_time w) (datetime_now_isoformat w).

Definition next_fault (w : World) : bool * World :=
  (default false (head (io_faults w)),
   mkWorld (files w) (tail (io_faults w)) (events w) (GPIO_AVAILABLE w)
           (time_time w) (datetime_now_isoformat w)).

Module OS.

(** A fallible system call: raises [OSError] when the environment says so,
    and otherwise applies its effect to the file system. *)
Definition syscall (effect : gmap string file_content → gmap string file_content)
    : M World unit :=
  λ w, let '(fails, w') := next_fault w in
       if fails then (Raise OSError, w')
       else (Return tt, set_files effect w').

(** [os.path.exists(path)] *)
Definition path_exists (path : string) : M World bool :=
  λ w, (Return (bool_decide (is_Some (files w !! path))), w).

(** [open(path, 'w')]: creates the file or truncates it. *)
Definition open_w (path : string) : M World unit :=
  syscall (λ fs, <[path := NotJson EmptyString]> fs).

(** [json.dump(doc, f)] on a file opened for writing at [path]. *)
Definition json_dump (path : string) (doc : pyval) : M World unit :=
  syscall (λ fs, <[path := Json doc]> fs).

(** [os.replace(src, dst)]: rename, overwriting the destination. *)
Definition replace (src dst : string) : M World unit :=
  λ w, match files w !! src with
       | Some c => syscall (λ fs, <[dst := c]> (delete src fs)) w
       | None => (Raise OSError, snd (next_fault w))
       end.

(** [os.remove(path)] *)
Definition remove (path : string) : M World unit :=
  λ w, match files w !! path with
       | Some _ => syscall (λ fs, delete path fs) w
       | None => (Raise OSError, snd (next_fault w))
       end.

(** [json.load(open(path, 'r'))] *)
Definition json_load (path : string) : M World pyval :=
  (syscall (λ fs, fs) ;;
   w <- get ;;
   match files w !! path with
   | Some (Json doc) => ret doc
   | Some (NotJson _) => raise JSONDecodeError
   | None => raise OSError
   end)%py.

(** [time.sleep(seconds)] *)
Definition sleep (seconds : Q) : M World unit :=
  modify (emit (TimeSleep seconds)).

(** [GPIO.output(pin, level)] *)
Definition gpio_output (pin : Z) (level : gpio_level) : M World unit :=
  modify (emit (GpioOutput pin level)).

(** [GPIO.setup(pin, GPIO.OUT, initial=level)]: makes the pin an output and
    drives it to [level]; the trace records the level the pin is driven
    to. *)
Definition gpio_setup_out (pin : Z) (initial : gpio_level) : M World unit :=
  modify (emit (GpioOutput pin initial)).

(** [s.startswith('/')] and [s.endswith('/')] *)
Definition starts_with_sep (s : string) : bool :=
  match s with
  | String a _ => bool_decide (a = "/"%char)
  | EmptyString => false
  end.

Fixpoint ends_with_sep (s : string) : bool :=
  match s with
  | EmptyString => false
  | String a EmptyString => bool_decide (a = "/"%char)
  | String _ rest => ends_with_sep rest
  end.

(** [os.path.isabs(path)] and [os.path.join(a, b)] of [posixpath]. *)
Definition path_isabs (path : string) : bool := starts_with_sep path.

Definition path_join (a b : string) : string :=
  if starts_with_sep b then b
  else if bool_decide (a = EmptyString) || ends_with_sep a then a +:+ b
  else a +:+ "/" +:+ b.

End OS.

(** ** Operations of Python on the values read back from a file *)

Module Py.

(** [key in container] for a string [key]. *)
Definition contains {S} (key : string) (container : pyval) : M S bool :=
  match container with
  | PyDict d => ret (bool_decide (is_Some (d !! key)))
  | PyList l =>
      ret (existsb (λ x, match x with
                         | PyStr s => bool_decide (s = key)
                         | _ => false
                         end) l)
  | PyStr s => ret (bool_decide (is_Some (String.index 0 key s)))
  | PyNone | PyBool _ | PyInt _ | PyFloat _ => raise TypeError
  end.

(** [container[key]] for a string [key]. *)
Definition getitem {S} (container : pyval) (key : string) : M S pyval :=
  match container with
  | PyDict d => match d !! key with
                | Some v => ret v
                | None => raise KeyError
                end
  | _ => raise TypeError
  end.

(** [container.get(key)]; only a [dict] has the method. *)
Definition get_method {S} (container : pyval) (key : string) : M S pyval :=
  match container with
  | PyDict d => ret (default PyNone (d !! key))
  | _ => raise AttributeError
  end.

(** An optional string as a Python value: [None] or a [str]. *)
Definition of_optional_str (o : option string) : pyval :=
  from_option PyStr PyNone o.

(** The truth value of [v] in [if v:]. *)
Definition truthy (v : pyval) : bool :=
  match v with
  | PyNone => false
  | PyBool b => b
  | PyInt z => negb (z =? 0)%Z
  | PyFloat q => negb (Qeq_bool q 0)
  | PyStr s => negb (bool_decide (s = EmptyString))
  | PyList l => negb (bool_decide (length l = 0%nat))
  | PyDict d => negb (bool_decide (size d = 0%nat))
  end.

End Py.

(** ** [state_manager.py]: class [StateManager] *)

Record StateManager : Type := mkStateManager {
  state_file : string;
}.

Module StateManager.

Definition default_state : gmap string pyval :=
  {[ "current_mode_press_count" := PyInt 0;
     "last_color_pressed" := PyNone ]}.

(** [not isinstance(mode_count, int) or mode_count < 0 or mode_count > 6];
    [or] evaluates the comparisons only on an [int] instance. *)
Definition invalid_mode_count (mode_count : pyval) : bool :=
  negb (isinstance_int mode_count)
  || match int_value mode_count with
     | Some z => (z <? 0)%Z || (z >? 6)%Z
     | None => true
     end.

Definition save_state (self : StateManager)
    (current_mode_press_count : Z) (last_color_pressed : option string)
    : M World bool :=
  try_except
    (w <- get ;;
     let state_data : gmap string pyval :=
       {[ "current_mode_press_count" := PyInt current_mode_press_count;
          "last_color_pressed" := Py.of_optional_str last_color_pressed;
          "last_updated" := PyStr (datetime_now_isoformat w) ]} in
     let temp_file := state_file self +:+ ".tmp" in
     OS.open_w temp_file ;;
     OS.json_dump temp_file (PyDict state_data) ;;
     OS.replace temp_file (state_file self) ;;
     ret true)
    (λ _, ret false).

Definition load_state (self : StateManager) : M World (gmap string pyval) :=
  file_exists <- OS.path_exists (state_file self) ;;
  if negb file_exists then ret default_state
  else
    try_except
      (state_data <- OS.json_load (state_file self) ;;
       has_count <- Py.contains "current_mode_press_count" state_data ;;
       if negb has_count then ret default_state
       else
         mode_count <- Py.getitem state_data "current_mode_press_count" ;;
         if invalid_mode_count mode_count then ret default_state
         else
           last_color <- Py.get_method state_data "last_color_pressed" ;;
           ret ({[ "current_mode_press_count" := mode_count;
                   "last_color_pressed" := last_color ]} : gmap string pyval))
      (λ _, ret default_state).

Definition clear_state (self : StateManager) : M World bool :=
  try_except
    (file_exists <- OS.path_exists (state_file self) ;;
     (if file_exists then OS.remove (state_file self) else ret tt) ;;
     ret true)
    (λ _, ret false).

Definition state_file_exists (self : StateManager) : M World bool :=
  OS.path_exists (state_file self).

(** [StateManager(state_file)]; [module_dir] is
    [os.path.dirname(os.path.abspath(__file__))], the directory of the
    module. *)
Definition __init__ (module_dir : string) (state_file : string) : StateManager :=
  if negb (OS.path_isabs state_file)
  then mkStateManager (OS.path_join module_dir state_file)
  else mkStateManager state_file.

Definition get_state_file_path (self : StateManager) : string :=
  state_file self.

End StateManager.

(** ** [gpio_controller.py]: the enumerations *)

Inductive LightMode : Type :=
  | BREATHE_COLORS
  | COLOR_DURATION
  | TRACK_DIRECTION
  | CIRCULAR_PATTERN
  | WHITE_MODE
  | OFF.

Inductive LightColor : Type :=
  | RED
  | GREEN
  | YELLOW.

Class EnumValue (E : Type) := value : E → string.

#[global] Instance LightMode_value : EnumValue LightMode := λ m,
  match m with
  | BREATHE_COLORS => "breathe_colors"
  | COLOR_DURATION => "color_duration"
  | TRACK_DIRECTION => "track_direction"
  | CIRCULAR_PATTERN => "circular_pattern"
  | WHITE_MODE => "white_mode"
  | OFF => "off"
  end.

#[global] Instance LightColor_value : EnumValue LightColor := λ c,
  match c with
  | RED => "red"
  | GREEN => "green"
  | YELLOW => "yellow"
  end.

#[global] Instance LightMode_eq_dec : EqDecision LightMode.
Proof. solve_decision. Defined.

#[global] Instance LightColor_eq_dec : EqDecision LightColor.
Proof. solve_decision. Defined.

(** The members of an enumeration are hashable: they can be dictionary
    keys. *)
#[global] Instance LightMode_countable : Countable LightMode.
Proof.
  refine (inj_countable'
    (λ m, match m with
          | BREATHE_COLORS => 0 | COLOR_DURATION => 1 | TRACK_DIRECTION => 2
          | CIRCULAR_PATTERN => 3 | WHITE_MODE => 4 | OFF => 5
          end%nat)
    (λ n, match n with
          | 0 => BREATHE_COLORS | 1 => COLOR_DURATION | 2 => TRACK_DIRECTION
          | 3 => CIRCULAR_PATTERN | 4 => WHITE_MODE | _ => OFF
          end%nat) _).
  by intros [].
Defined.

#[global] Instance LightColor_countable : Countable LightColor.
Proof.
  refine (inj_countable'
    (λ c, match c with RED => 0 | GREEN => 1 | YELLOW => 2 end%nat)
    (λ n, match n with 0 => RED | 1 => GREEN | _ => YELLOW end%nat) _).
  by intros [].
Defined.

(** ** [gpio_controller.py]: class [GPIOController] *)

Record GPIOController : Type := mkController {
  state_manager : StateManager;
  current_mode_press_count : Z;
  last_color_pressed : option LightColor;
}.

(** The running process: the controller object and the world around it. *)
Record Process : Type := mkProcess {
  self : GPIOController;
  world : World;
}.

Definition set_current_mode_press_count (n : Z) (p : Process) : Process :=
  mkProcess (mkController (state_manager (self p)) n (last_color_pressed (self p)))
            (world p).

Definition set_last_color_pressed (c : option LightColor) (p : Process) : Process :=
  mkProcess (mkController (state_manager (self p)) (current_mode_press_count (self p)) c)
            (world p).

(** Runs a computation on the world inside the process. *)
Definition in_world {A} (m : M World A) : M Process A :=
  λ p, let '(r, w') := m (world p) in (r, mkProcess (self p) w').

(** [d[k]] on a dictionary of the class. *)
Definition dict_getitem `{Countable K} {V S} (d : gmap K V) (k : K) : M S V :=
  match d !! k with
  | Some v => ret v
  | None => raise KeyError
  end.

Module GPIOController.

Definition PIN_SW1_RED : Z := 17.
Definition PIN_SW2_GREEN : Z := 18.
Definition PIN_SW3_YELLOW : Z := 27.
Definition PIN_SW4_MODE : Z := 22.

Definition MODE_PRESS_COUNT : gmap LightMode Z :=
  {[ BREATHE_COLORS := 1;
     COLOR_DURATION := 2;
     TRACK_DIRECTION := 3;
     CIRCULAR_PATTERN := 4;
     WHITE_MODE := 5;
     OFF := 6 ]}.

(** [{v: k for k, v in MODE_PRESS_COUNT.items()}] *)
Definition PRESS_COUNT_TO_MODE : gmap Z LightMode :=
  map_fold (λ k v acc, <[v := k]> acc) ∅ MODE_PRESS_COUNT.

Definition _simulate_button_press (pin : Z) (duration : Q) : M Process unit :=
  p <- get ;;
  if GPIO_AVAILABLE (world p) then
    in_world (OS.gpio_output pin LOW) ;;
    in_world (OS.sleep duration) ;;
    in_world (OS.gpio_output pin HIGH) ;;
    in_world (OS.sleep (1 # 10))
  else
    in_world (OS.sleep duration).

(** The default of the [duration] argument, 0.2 seconds. *)
Definition default_duration : Q := 1 # 5.

Definition press_color_switch (color : LightColor)
    : M Process (gmap string pyval) :=
  let pin_map : gmap LightColor Z :=
    {[ RED := PIN_SW1_RED;
       GREEN := PIN_SW2_GREEN;
       YELLOW := PIN_SW3_YELLOW ]} in
  pin <- dict_getitem pin_map color ;;
  _simulate_button_press pin default_duration ;;
  modify (set_last_color_pressed (Some color)) ;;
  modify (set_current_mode_press_count 0) ;;
  p <- get ;;
  in_world (StateManager.save_state (state_manager (self p))
              (current_mode_press_count (self p))
              (value <$> last_color_pressed (self p))) ;;
  p <- get ;;
  ret ({[ "action" := PyStr "color_switch_pressed";
          "color" := PyStr (value color);
          "gpio_pin" := PyInt pin;
          "timestamp" := PyFloat (time_time (world p)) ]} : gmap string pyval).

(** The body of the loop of [press_mode_switch], at index [i]. *)
Definition press_mode_switch_body (count i : Z) : M Process unit :=
  _simulate_button_press PIN_SW4_MODE default_duration ;;
  modify (λ p, set_current_mode_press_count
                 (current_mode_press_count (self p) `mod` 6 + 1) p) ;;
  if (i <? count - 1)%Z then in_world (OS.sleep (1 # 50)) else ret tt.

Definition press_mode_switch (count : Z) : M Process (gmap string pyval) :=
  for_range (Z.to_nat count) 0 (press_mode_switch_body count) ;;
  p <- get ;;
  current_mode <- dict_getitem PRESS_COUNT_TO_MODE
                    (current_mode_press_count (self p)) ;;
  in_world (StateManager.save_state (state_manager (self p))
              (current_mode_press_count (self p))
              (value <$> last_color_pressed (self p))) ;;
  p <- get ;;
  ret ({[ "action" := PyStr "mode_switch_pressed";
          "press_count" := PyInt count;
          "total_mode_presses" := PyInt (current_mode_press_count (self p));
          "current_mode" := PyStr (value current_mode);
          "gpio_pin" := PyInt PIN_SW4_MODE;
          "timestamp" := PyFloat (time_time (world p)) ]} : gmap string pyval).

(** The number of presses [set_mode] computes from the current and the
    target press count. *)
Definition presses_needed (current_count target_count : Z) : Z :=
  if (current_count =? 0)%Z then target_count
  else if (target_count =? current_count)%Z then 0
  else if (target_count >? current_count)%Z then target_count - current_count
  else (6 - current_count) + target_count.

Definition set_mode (target_mode : LightMode) : M Process (gmap string pyval) :=
  target_count <- dict_getitem MODE_PRESS_COUNT target_mode ;;
  p <- get ;;
  let current_count := current_mode_press_count (self p) in
  let presses_needed := presses_needed current_count target_count in
  if (presses_needed >? 0)%Z then press_mode_switch presses_needed
  else
    ret ({[ "action" := PyStr "mode_already_set";
            "current_mode" := PyStr (value target_mode);
            "total_mode_presses" := PyInt (current_mode_press_count (self p));
            "timestamp" := PyFloat (time_time (world p)) ]} : gmap string pyval).

Definition reset : M Process (gmap string pyval) :=
  result <- set_mode OFF ;;
  modify (set_current_mode_press_count 0) ;;
  modify (set_last_color_pressed None) ;;
  p <- get ;;
  in_world (StateManager.clear_state (state_manager (self p))) ;;
  p <- get ;;
  ret ({[ "action" := PyStr "system_reset";
          "lights_off" := PyBool true;
          "state_cleared" := PyBool true;
          "current_mode_press_count" := PyInt (current_mode_press_count (self p));
          "timestamp" := PyFloat (time_time (world p));
          "message" := PyStr "System reset successfully. Lights are off and ready to start from beginning." ]}
       : gmap string pyval).

(** The members of the enumerations, in the order of their definition. *)
Definition LightMode_members : list LightMode :=
  [BREATHE_COLORS; COLOR_DURATION; TRACK_DIRECTION; CIRCULAR_PATTERN;
   WHITE_MODE; OFF].

Definition LightColor_members : list LightColor := [RED; GREEN; YELLOW].

(** [LightColor(v)] inside [try: ... except ValueError:]: the member whose
    value equals [v], and [None] when the call raises [ValueError] because
    there is none (no value that is not a string equals a member's). *)
Definition LightColor_of (v : pyval) : option LightColor :=
  match v with
  | PyStr s => List.find (λ c, bool_decide (value c = s)) LightColor_members
  | _ => None
  end.

(** [member.value if member else None]: a member of a [str] enumeration is
    true when its value is not the empty string. *)
Definition value_or_None `{EnumValue E} (member : option E) : pyval :=
  match member with
  | Some m => if Py.truthy (PyStr (value m)) then PyStr (value m) else PyNone
  | None => PyNone
  end.

(** [GPIOController()].  [module_dir] is the directory of the module of
    [StateManager], which resolves the path of the state file.  The field
    [current_mode_press_count] takes the count that [load_state] returns,
    an instance of [int]; the model keeps the integer it denotes. *)
Definition __init__ (module_dir : string) : M World GPIOController :=
  let state_manager := StateManager.__init__ module_dir "state.json" in
  saved_state <- StateManager.load_state state_manager ;;
  count <- dict_getitem saved_state "current_mode_press_count" ;;
  last_color_str <- dict_getitem saved_state "last_color_pressed" ;;
  let last_color_pressed :=
    if Py.truthy last_color_str then LightColor_of last_color_str else None in
  w <- get ;;
  (if GPIO_AVAILABLE w then
     OS.gpio_setup_out PIN_SW1_RED HIGH ;;
     OS.gpio_setup_out PIN_SW2_GREEN HIGH ;;
     OS.gpio_setup_out PIN_SW3_YELLOW HIGH ;;
     OS.gpio_setup_out PIN_SW4_MODE HIGH
   else ret tt) ;;
  ret (mkController state_manager (default 0 (int_value count))
         last_color_pressed).

Definition get_status : M Process (gmap string pyval) :=
  p <- get ;;
  let current_mode :=
    PRESS_COUNT_TO_MODE !! current_mode_press_count (self p) in
  ret ({[ "gpio_available" := PyBool (GPIO_AVAILABLE (world p));
          "current_mode_press_count" :=
            PyInt (current_mode_press_count (self p));
          "current_mode" := value_or_None current_mode;
          "last_color_pressed" := value_or_None (last_color_pressed (self p));
          "available_modes" := PyList ((λ m, PyStr (value m)) <$> LightMode_members);
          "available_colors" := PyList ((λ c, PyStr (value c)) <$> LightColor_members) ]}
       : gmap string pyval).

End GPIOController.

Import GPIOController.

(** ** [api.py]: the endpoints

    The handlers as functions of the request that FastAPI has validated
    against its model, on the global [controller] and the world.  A handler
    answers with a body or raises [HTTPException]; the [detail] of the
    exception is a fixed text followed, in the handlers that catch an
    exception of the controller, by the text of that exception. *)

Record Server : Type := mkServer {
  controller : option GPIOController;
  server_world : World;
}.

Inductive http_result : Type :=
  | HttpOk (body : gmap string pyval)
  | HTTPException (status_code : Z) (detail : string) (cause : option exn).

Module Api.

Definition HTTP_500_INTERNAL_SERVER_ERROR : Z := 500.
Definition HTTP_503_SERVICE_UNAVAILABLE : Z := 503.

(** The bounds of [ModePressRequest.count], [Field(1, ge=1, le=6)]. *)
Definition ModePressRequest_valid (count : Z) : bool :=
  (1 <=? count)%Z && (count <=? 6)%Z.

(** The part the mutating handlers share:
    [if not controller: raise HTTPException(503, ...)], then
    [try: return method(...)  except Exception as e: raise HTTPException(500, ...)]. *)
Definition guarded_call (method : M Process (gmap string pyval))
    (failure : string) : Server → http_result * Server :=
  λ s, match controller s with
       | None =>
           (HTTPException HTTP_503_SERVICE_UNAVAILABLE
              "Controller not initialized" None, s)
       | Some c =>
           let '(r, p') := method (mkProcess c (server_world s)) in
           let s' := mkServer (Some (self p')) (world p') in
           match r with
           | Return result => (HttpOk result, s')
           | Raise e =>
               (HTTPException HTTP_500_INTERNAL_SERVER_ERROR failure (Some e), s')
           end
       end.


Definition get_status : Server → http_result * Server :=
  λ s, match controller s with
       | None =>
           (HTTPException HTTP_503_SERVICE_UNAVAILABLE
              "Controller not initialized" None, s)
       | Some c =>
           let '(r, p') := GPIOController.get_status (mkProcess c (server_world s)) in
           let s' := mkServer (Some (self p')) (world p') in
           match r with
           | Return result => (HttpOk result, s')
           | Raise e => (HTTPException HTTP_500_INTERNAL_SERVER_ERROR
                           "Internal Server Error" (Some e), s')
           end
       end.

Definition set_color (color : LightColor) : Server → http_result * Server :=
  guarded_call (GPIOController.press_color_switch color) "Failed to set color: ".

Definition set_mode (mode : LightMode) : Server → http_result * Server :=
  guarded_call (GPIOController.set_mode mode) "Failed to set mode: ".

Definition press_mode_button (count : Z) : Server → http_result * Server :=
  guarded_call (GPIOController.press_mode_switch count)
    "Failed to press mode button: ".

Definition reset_system : Server → http_result * Server :=
  guarded_call GPIOController.reset "Failed to reset system: ".

Definition mode_entry (name : string) (press_count : Z) (description : string)
    : pyval :=
  PyDict {[ "name" := PyStr name;
            "press_count" := PyInt press_count;
            "description" := PyStr description ]}.

Definition list_modes : gmap string pyval :=
  {[ "modes" := PyList
       [ mode_entry "breathe_colors" 1 "Breathe Colors";
         mode_entry "color_duration" 2 "Display each color for set duration";
         mode_entry "track_direction" 3 "Run lights along track direction";
         mode_entry "circular_pattern" 4 "Run lights in circular pattern";
         mode_entry "white_mode" 5 "Set lights to White Mode";
         mode_entry "off" 6 "Turn off the lights" ] ]}.

Definition color_entry (name switch : string) (gpio : Z) : pyval :=
  PyDict {[ "name" := PyStr name;
            "switch" := PyStr switch;
            "gpio" := PyInt gpio ]}.

Definition list_colors : gmap string pyval :=
  {[ "colors" := PyList
       [ color_entry "red" "SW1" 17;
         color_entry "green" "SW2" 18;
         color_entry "yellow" "SW3" 27 ] ]}.

End Api.

(** ** Vocabulary of the specification *)

(** One cyclic advance of the mode position. *)
Definition cyclic_advance (position : Z) : Z := position `mod` 6 + 1.

(** The mode position of the controller. *)
Definition mode_position (p : Process) : Z := current_mode_press_count (self p).

(** The colour the controller remembers. *)
Definition last_color (p : Process) : option LightColor := last_color_pressed (self p).

(** The state after a computation, and its outcome. *)
Definition state_after {S A} (m : M S A) (s : S) : S := snd (m s).
Definition outcome_of {S A} (m : M S A) (s : S) : outcome A := fst (m s).

(** The document [save_state] writes for a press count, a colour and a time
    stamp. *)
Definition state_document (count : Z) (color : option string) (stamp : string)
    : pyval :=
  PyDict {[ "current_mode_press_count" := PyInt count;
            "last_color_pressed" := Py.of_optional_str color;
            "last_updated" := PyStr stamp ]}.

(** What [load_state] returns, read off the file system and the fault
    script: the stored count and colour when the file holds a dictionary
    whose count passes the validation and the read does not fail, and the
    defaults otherwise. *)
Definition load_state_result (sm : StateManager) (w : World) : gmap string pyval :=
  match files w !! state_file sm with
  | Some (Json (PyDict d)) =>
      if default false (head (io_faults w)) then StateManager.default_state
      else
        match d !! "current_mode_press_count" with
        | Some v =>
            if StateManager.invalid_mode_count v
            then StateManager.default_state
            else {[ "current_mode_press_count" := v;
                    "last_color_pressed" :=
                      default PyNone (d !! "last_color_pressed") ]}
        | None => StateManager.default_state
        end
  | _ => StateManager.default_state
  end.

(** The world with further events appended to its trace. *)
Definition emit_all (evs : list io_event) (w : World) : World :=
  mkWorld (files w) (io_faults w) (events w ++ evs) (GPIO_AVAILABLE w)
          (time_time w) (datetime_now_isoformat w).

(** The events of one simulated button press. *)
Definition pulse_events (gpio : bool) (pin : Z) (duration : Q) : list io_event :=
  if gpio then [GpioOutput pin LOW; TimeSleep duration;
                GpioOutput pin HIGH; TimeSleep (1 # 10)]
  else [TimeSleep duration].

(** The events of [n] iterations of the loop of [press_mode_switch count],
    started at index [i]. *)
Fixpoint press_loop_events (gpio : bool) (count : Z) (n : nat) (i : Z)
    : list io_event :=
  match n with
  | O => []
  | S n' =>
      pulse_events gpio PIN_SW4_MODE default_duration
      ++ (if (i <? count - 1)%Z then [TimeSleep (1 # 50)] else [])
      ++ press_loop_events gpio count n' (i + 1)
  end.

(** The position and the world that the loop of [press_mode_switch count]
    leaves behind. *)
Definition positions_after (count : Z) (p : Process) : Z :=
  Nat.iter (Z.to_nat count) cyclic_advance (mode_position p).

Definition world_after_presses (count : Z) (p : Process) : World :=
  emit_all (press_loop_events (GPIO_AVAILABLE (world p)) count (Z.to_nat count) 0)
           (world p).

(** The pin each colour is bound to. *)
Definition color_pin (color : LightColor) : Z :=
  match color with
  | RED => PIN_SW1_RED
  | GREEN => PIN_SW2_GREEN
  | YELLOW => PIN_SW3_YELLOW
  end.

(** The records the methods return. *)
Definition color_switch_record (color : LightColor) (timestamp : Q)
    : gmap string pyval :=
  {[ "action" := PyStr "color_switch_pressed";
     "color" := PyStr (value color);
     "gpio_pin" := PyInt (color_pin color);
     "timestamp" := PyFloat timestamp ]}.

Definition mode_switch_record (count position : Z) (mode : LightMode)
    (timestamp : Q) : gmap string pyval :=
  {[ "action" := PyStr "mode_switch_pressed";
     "press_count" := PyInt count;
     "total_mode_presses" := PyInt position;
     "current_mode" := PyStr (value mode);
     "gpio_pin" := PyInt PIN_SW4_MODE;
     "timestamp" := PyFloat timestamp ]}.

Definition mode_already_set_record (mode : LightMode) (position : Z)
    (timestamp : Q) : gmap string pyval :=
  {[ "action" := PyStr "mode_already_set";
     "current_mode" := PyStr (value mode);
     "total_mode_presses" := PyInt position;
     "timestamp" := PyFloat timestamp ]}.

Definition system_reset_record (position : Z) (timestamp : Q)
    : gmap string pyval :=
  {[ "action" := PyStr "system_reset";
     "lights_off" := PyBool true;
     "state_cleared" := PyBool true;
     "current_mode_press_count" := PyInt position;
     "timestamp" := PyFloat timestamp;
     "message" := PyStr "System reset successfully. Lights are off and ready to start from beginning." ]}.

(** Reading the trace: the presses of a pin (its transitions to LOW), the
    writes to the GPIO, the sleeps of a given length, the time slept in
    all, and the level a pin was last driven to. *)
Definition is_press (pin : Z) (ev : io_event) : bool :=
  match ev with
  | GpioOutput pin' LOW => (pin' =? pin)%Z
  | _ => false
  end.

Definition presses_on (pin : Z) (evs : list io_event) : nat :=
  length (List.filter (is_press pin) evs).

Definition is_gpio_write (ev : io_event) : bool :=
  match ev with
  | GpioOutput _ _ => true
  | TimeSleep _ => false
  end.

Definition gpio_writes (evs : list io_event) : list io_event :=
  List.filter is_gpio_write evs.

Definition is_sleep_of (seconds : Q) (ev : io_event) : bool :=
  match ev with
  | TimeSleep q => Qeq_bool q seconds
  | GpioOutput _ _ => false
  end.

Definition sleeps_of (seconds : Q) (evs : list io_event) : nat :=
  length (List.filter (is_sleep_of seconds) evs).

Definition time_slept (evs : list io_event) : Q :=
  fold_right (λ ev total, match ev with
                          | TimeSleep q => q + total
                          | GpioOutput _ _ => total
                          end)%Q 0%Q evs.

Definition pin_level (pin : Z) (initial : option gpio_level)
    (evs : list io_event) : option gpio_level :=
  fold_left (λ level ev, match ev with
                         | GpioOutput pin' l =>
                             if (pin' =? pin)%Z then Some l else level
                         | TimeSleep _ => level
                         end) evs initial.

(** No pin is held LOW: no button is left pressed. *)
Definition buttons_released (evs : list io_event) : Prop :=
  ∀ pin, pin_level pin None evs ≠ Some LOW.


(** The events of the set-up of the four pins in [GPIOController()]. *)
Definition setup_events (gpio : bool) : list io_event :=
  if gpio then [GpioOutput PIN_SW1_RED HIGH; GpioOutput PIN_SW2_GREEN HIGH;
                GpioOutput PIN_SW3_YELLOW HIGH; GpioOutput PIN_SW4_MODE HIGH]
  else [].

(** The directory of the module, for the examples; the state file of
    [example_manager] is the one [StateManager()] resolves from it. *)
Definition example_module_dir : string := "/home/pi/backend".

(** Concrete states, for the examples. *)
Definition example_manager : StateManager :=
  mkStateManager "/home/pi/backend/state.json".

Definition example_world (faults : list bool) : World :=
  mkWorld ∅ faults [] false (1700000000 # 1) "2025-01-01T12:00:00".

Definition example_process (position : Z) (color : option LightColor)
    (faults : list bool) : Process :=
  mkProcess (mkController example_manager position color) (example_world faults).

(** A world whose state file holds [{"current_mode_press_count": true}]. *)
Definition boolean_count_world : World :=
  mkWorld
    {[ state_file example_manager :=
         Json (PyDict {[ "current_mode_press_count" := PyBool true ]}) ]}
    [] [] false (1700000000 # 1) "2025-01-01T12:00:00".

(** * Properties *)

Ltac unfold_monad :=
  unfold bind, ret, raise, get, modify, try_except, in_world, dict_getitem in *.

(** ** Arithmetic of the mode cycle *)

Section Cycle.

Lemma cyclic_advance_range (position : Z) : 1 ≤ cyclic_advance position ≤ 6.
Proof.
  unfold cyclic_advance.
  pose proof (Z.mod_pos_bound position 6 ltac:(lia)). lia.
Qed.

Lemma cyclic_advance_iter_S (n : nat) (position : Z) :
  Nat.iter (S n) cyclic_advance position = (position + Z.of_nat n) `mod` 6 + 1.
Proof.
  induction n as [|n IH].
  - simpl. unfold cyclic_advance. by rewrite Z.add_0_r.
  - change (Nat.iter (S (S n)) cyclic_advance position)
      with (cyclic_advance (Nat.iter (S n) cyclic_advance position)).
    rewrite IH. unfold cyclic_advance.
    rewrite Z.add_mod_idemp_l by lia.
    f_equal. f_equal. lia.
Qed.

Lemma cyclic_advance_iter_range (n : nat) (position : Z) :
  (0 < n)%nat → 1 ≤ Nat.iter n cyclic_advance position ≤ 6.
Proof.
  destruct n as [|n]; [lia|]. intros _. simpl. apply cyclic_advance_range.
Qed.

Lemma presses_needed_range (current target : Z) :
  1 ≤ current ≤ 6 → 1 ≤ target ≤ 6 → 0 ≤ presses_needed current target ≤ 5.
Proof.
  intros Hc Ht. unfold presses_needed.
  destruct (Z.eqb_spec current 0); [lia|].
  destruct (Z.eqb_spec target current); [lia|].
  destruct (Z.gtb_spec target current); lia.
Qed.

Lemma presses_needed_from_zero (target : Z) : presses_needed 0 target = target.
Proof. reflexivity. Qed.

(** From a position of the cycle, or from the sentinel 0, the computed
    number of advances ends on the target. *)
Lemma presses_needed_reaches (current target : Z) :
  0 ≤ current ≤ 6 → 1 ≤ target ≤ 6 →
  Nat.iter (Z.to_nat (presses_needed current target)) cyclic_advance current
  = target.
Proof.
  intros Hc Ht. unfold presses_needed.
  destruct (Z.eqb_spec current 0) as [->|Hne].
  - destruct (Z.to_nat target) as [|n] eqn:En; [lia|].
    rewrite cyclic_advance_iter_S.
    replace (0 + Z.of_nat n) with (target - 1) by lia.
    rewrite Z.mod_small by lia. lia.
  - destruct (Z.eqb_spec target current) as [->|Hne']; [done|].
    destruct (Z.gtb_spec target current).
    + destruct (Z.to_nat (target - current)) as [|n] eqn:En; [lia|].
      rewrite cyclic_advance_iter_S.
      replace (current + Z.of_nat n) with (target - 1) by lia.
      rewrite Z.mod_small by lia. lia.
    + destruct (Z.to_nat (6 - current + target)) as [|n] eqn:En; [lia|].
      rewrite cyclic_advance_iter_S.
      replace (current + Z.of_nat n) with (target - 1 + 1 * 6) by lia.
      rewrite Z.mod_add by lia.
      rewrite Z.mod_small by lia. lia.
Qed.

End Cycle.

(** ** The dictionaries of the class *)

Section Dictionaries.

Lemma MODE_PRESS_COUNT_range (m : LightMode) :
  ∃ t, MODE_PRESS_COUNT !! m = Some t ∧ 1 ≤ t ≤ 6.
Proof. destruct m; eexists; (split; [reflexivity | lia]). Qed.

Lemma PRESS_COUNT_TO_MODE_unfold :
  PRESS_COUNT_TO_MODE
  = {[ 1 := BREATHE_COLORS; 2 := COLOR_DURATION; 3 := TRACK_DIRECTION;
       4 := CIRCULAR_PATTERN; 5 := WHITE_MODE; 6 := OFF ]}.
Proof. vm_compute. reflexivity. Qed.

(** The keys of the reverse mapping are exactly 1..6. *)
Lemma PRESS_COUNT_TO_MODE_dom (z : Z) :
  is_Some (PRESS_COUNT_TO_MODE !! z) ↔ 1 ≤ z ≤ 6.
Proof.
  rewrite PRESS_COUNT_TO_MODE_unfold. split.
  - intros [m Hm].
    destruct (decide (1 ≤ z ≤ 6)) as [|Hout]; [done|].
    rewrite !lookup_insert_ne in Hm by lia.
    by rewrite lookup_singleton_ne in Hm by lia.
  - intros Hz.
    assert (z = 1 ∨ z = 2 ∨ z = 3 ∨ z = 4 ∨ z = 5 ∨ z = 6) as Hcases by lia.
    destruct Hcases as [->|[->|[->|[->|[->| ->]]]]]; by eexists.
Qed.

(** The two mappings are inverse to each other. *)
Lemma PRESS_COUNT_TO_MODE_inverse (m : LightMode) (t : Z) :
  MODE_PRESS_COUNT !! m = Some t ↔ PRESS_COUNT_TO_MODE !! t = Some m.
Proof.
  split.
  - destruct m; intros [= <-]; reflexivity.
  - intros Hm.
    assert (1 ≤ t ≤ 6) as Ht by (apply PRESS_COUNT_TO_MODE_dom; eauto).
    assert (t = 1 ∨ t = 2 ∨ t = 3 ∨ t = 4 ∨ t = 5 ∨ t = 6) as Hcases by lia.
    destruct Hcases as [->|[->|[->|[->|[->| ->]]]]];
      vm_compute in Hm; injection Hm as <-; reflexivity.
Qed.

End Dictionaries.

(** ** Running the button presses *)

Section Presses.

Lemma emit_all_nil (w : World) : emit_all [] w = w.
Proof. destruct w. unfold emit_all. simpl. by rewrite app_nil_r. Qed.

Lemma emit_all_app (evs1 evs2 : list io_event) (w : World) :
  emit_all evs2 (emit_all evs1 w) = emit_all (evs1 ++ evs2) w.
Proof. unfold emit_all. simpl. by rewrite app_assoc. Qed.

Lemma simulate_button_press_run (pin : Z) (duration : Q) (p : Process) :
  _simulate_button_press pin duration p
  = (Return tt,
     mkProcess (self p)
       (emit_all (pulse_events (GPIO_AVAILABLE (world p)) pin duration) (world p))).
Proof.
  destruct p as [c w]. destruct w as [fs faults evs gpio t iso].
  unfold _simulate_button_press, pulse_events, emit_all. unfold_monad.
  simpl. destruct gpio; simpl; unfold emit; simpl;
    rewrite <- ?app_assoc; reflexivity.
Qed.

(** One iteration of the loop: a pulse on the mode pin and one cyclic
    advance of the position; it never raises. *)
Lemma press_mode_switch_body_run (count i : Z) (p : Process) :
  press_mode_switch_body count i p
  = (Return tt,
     mkProcess
       (mkController (state_manager (self p))
          (cyclic_advance (mode_position p)) (last_color p))
       (emit_all (press_loop_events (GPIO_AVAILABLE (world p)) count 1 i)
          (world p))).
Proof.
  unfold press_mode_switch_body.
  unfold bind at 1. rewrite simulate_button_press_run.
  destruct p as [c w]. destruct w as [fs faults evs gpio t iso].
  unfold_monad. simpl. rewrite app_nil_r.
  destruct (i <? count - 1); simpl; unfold emit_all, emit; simpl;
    rewrite <- ?app_assoc, ?app_nil_r; reflexivity.
Qed.

(** [n] iterations: [n] cyclic advances, the events of [n] presses, the
    files and the fault script untouched. *)
Lemma press_loop_run (count : Z) (n : nat) (i : Z) (p : Process) :
  for_range n i (press_mode_switch_body count) p
  = (Return tt,
     mkProcess
       (mkController (state_manager (self p))
          (Nat.iter n cyclic_advance (mode_position p)) (last_color p))
       (emit_all (press_loop_events (GPIO_AVAILABLE (world p)) count n i)
          (world p))).
Proof.
  revert i p. induction n as [|n IH]; intros i p.
  - simpl. rewrite emit_all_nil. by destruct p as [[] ?].
  - rewrite Nat.iter_succ_r.
    change (for_range (S n) i (press_mode_switch_body count))
      with (bind (press_mode_switch_body count i)
              (λ _, for_range n (i + 1) (press_mode_switch_body count))).
    unfold bind. rewrite press_mode_switch_body_run, IH.
    simpl. rewrite emit_all_app, app_nil_r, <- !app_assoc. reflexivity.
Qed.

End Presses.

(** ** The state store *)

Section Store.

Variable sm : StateManager.

Lemma save_state_run (count : Z) (color : option string) (w : World) :
  ∃ b w',
    StateManager.save_state sm count color w = (Return b, w')
    ∧ b = forallb negb (take 3 (io_faults w))
    ∧ events w' = events w
    ∧ GPIO_AVAILABLE w' = GPIO_AVAILABLE w
    ∧ time_time w' = time_time w
    ∧ datetime_now_isoformat w' = datetime_now_isoformat w
    ∧ (b = true →
       files w' !! state_file sm
       = Some (Json (state_document count color (datetime_now_isoformat w)))).
Proof.
  destruct w as [fs faults evs gpio t iso].
  unfold StateManager.save_state, OS.open_w, OS.json_dump, OS.replace,
    OS.syscall, next_fault, set_files.
  unfold_monad. simpl.
  destruct faults as [|[] faults]; simpl;
    [|by eexists _, _; repeat split|].
  - rewrite lookup_insert_eq. simpl.
    eexists _, _; repeat split. intros _. simpl. by rewrite lookup_insert_eq.
  - destruct faults as [|[] faults]; simpl;
      [|by eexists _, _; repeat split|].
    + rewrite lookup_insert_eq. simpl.
      eexists _, _; repeat split. intros _. simpl. by rewrite lookup_insert_eq.
    + rewrite lookup_insert_eq. simpl.
      destruct faults as [|[] faults]; simpl;
        [|by eexists _, _; repeat split|].
      * eexists _, _; repeat split. intros _. simpl. by rewrite lookup_insert_eq.
      * eexists _, _; repeat split. intros _. simpl. by rewrite lookup_insert_eq.
Qed.

Lemma temp_file_distinct (path : string) : path +:+ ".tmp" ≠ path.
Proof.
  induction path as [|a path IH]; [discriminate|].
  intros Heq. apply IH.
  change (String a (path +:+ ".tmp") = String a path) in Heq.
  by injection Heq.
Qed.

(** A save that fails leaves the state file as it was: the write goes to
    the temporary file, and only the final rename touches the state file. *)
Lemma save_state_failure_keeps_file (count : Z) (color : option string)
    (w w' : World) :
  StateManager.save_state sm count color w = (Return false, w') →
  files w' !! state_file sm = files w !! state_file sm.
Proof.
  pose proof (temp_file_distinct (state_file sm)) as Htemp.
  destruct w as [fs faults evs gpio t iso].
  unfold StateManager.save_state, OS.open_w, OS.json_dump, OS.replace,
    OS.syscall, next_fault, set_files.
  unfold_monad. simpl.
  destruct faults as [|[] faults]; simpl.
  - rewrite lookup_insert_eq. simpl. discriminate.
  - by intros [= <-].
  - destruct faults as [|[] faults]; simpl.
    + rewrite lookup_insert_eq. simpl. discriminate.
    + intros [= <-]. simpl. by rewrite lookup_insert_ne.
    + rewrite lookup_insert_eq. simpl.
      destruct faults as [|[] faults]; simpl; [discriminate| |discriminate].
      intros [= <-]. simpl. by rewrite !lookup_insert_ne.
Qed.

(** [save_state] never raises. *)
Lemma save_state_returns (count : Z) (color : option string) (w : World) :
  ∃ b, outcome_of (StateManager.save_state sm count color) w = Return b.
Proof.
  destruct (save_state_run count color w) as (b & w' & Hrun & _).
  exists b. unfold outcome_of. by rewrite Hrun.
Qed.

(** What [load_state] makes of a file that holds a dictionary with a
    valid press count. *)
Lemma load_state_document (w : World) (d : gmap string pyval) (v : pyval) :
  files w !! state_file sm = Some (Json (PyDict d)) →
  head (io_faults w) ≠ Some true →
  d !! "current_mode_press_count" = Some v →
  StateManager.invalid_mode_count v = false →
  StateManager.load_state sm w
  = (Return ({[ "current_mode_press_count" := v;
                "last_color_pressed" := default PyNone (d !! "last_color_pressed") ]}),
     snd (next_fault w)).
Proof.
  intros Hfile Hfault Hcount Hvalid.
  destruct w as [fs faults evs gpio t iso]. simpl in *.
  unfold StateManager.load_state, OS.path_exists, OS.json_load, OS.syscall,
    next_fault, set_files, Py.contains, Py.getitem, Py.get_method.
  unfold_monad. simpl.
  rewrite Hfile. rewrite bool_decide_eq_true_2 by eauto. simpl.
  destruct faults as [|[] faults]; simpl in *; [|done|].
  - rewrite Hfile, Hcount. rewrite bool_decide_eq_true_2 by eauto. simpl.
    by rewrite Hvalid.
  - rewrite Hfile, Hcount. rewrite bool_decide_eq_true_2 by eauto. simpl.
    by rewrite Hvalid.
Qed.

(** A [try] whose handler returns a value never raises. *)
Lemma try_except_returns {S A} (body : M S A) (a0 : A) (s : S) :
  ∃ a s', try_except body (λ _, ret a0) s = (Return a, s')
          ∧ (∀ e, fst (body s) = Raise e → a = a0).
Proof.
  unfold try_except, ret. destruct (body s) as [[a|e] s']; simpl.
  - exists a, s'. split; [done|]. discriminate.
  - exists a0, s'. split; [done|]. done.
Qed.

(** [load_state] never raises: every path ends in a returned dictionary. *)
Lemma load_state_never_raises (w : World) :
  ∃ d, outcome_of (StateManager.load_state sm) w = Return d.
Proof.
  unfold outcome_of, StateManager.load_state, OS.path_exists.
  unfold bind at 1. cbv beta iota.
  destruct (negb _); [by eexists|].
  match goal with
  | |- context [try_except ?body _ w] =>
      destruct (try_except_returns body StateManager.default_state w)
        as (d & w' & Hrun & _)
  end.
  rewrite Hrun. by eexists.
Qed.

Lemma load_state_outcome (w : World) :
  outcome_of (StateManager.load_state sm) w = Return (load_state_result sm w).
Proof.
  destruct w as [fs faults evs gpio t iso].
  unfold outcome_of, load_state_result, StateManager.load_state,
    OS.path_exists, OS.json_load, OS.syscall, next_fault, set_files,
    Py.contains, Py.getitem, Py.get_method.
  unfold_monad. simpl.
  destruct (fs !! state_file sm) as [content|] eqn:Hfile; simpl;
    [|done].
  rewrite ?bool_decide_eq_true_2 by eauto. simpl.
  destruct faults as [|fault faults]; simpl.
  - rewrite Hfile.
    destruct content as [text|doc]; simpl; [done|].
    destruct doc as [| | | | s |l|d]; simpl; try done.
    + by destruct (bool_decide _).
    + by destruct (existsb _ l).
    + destruct (d !! "current_mode_press_count") as [v|] eqn:Hcount; simpl.
      * rewrite ?bool_decide_eq_true_2 by eauto. simpl.
        by destruct (StateManager.invalid_mode_count v).
      * done.
  - destruct fault; simpl.
    { by destruct content as [|[]]. }
    rewrite Hfile.
    destruct content as [text|doc]; simpl; [done|].
    destruct doc as [| | | | s |l|d]; simpl; try done.
    + by destruct (bool_decide _).
    + by destruct (existsb _ l).
    + destruct (d !! "current_mode_press_count") as [v|] eqn:Hcount; simpl.
      * rewrite ?bool_decide_eq_true_2 by eauto. simpl.
        by destruct (StateManager.invalid_mode_count v).
      * done.
Qed.

End Store.

(** ** The methods of the controller, run from an arbitrary state *)

Section Engine.

Implicit Types (p : Process) (count : Z).

(** [press_mode_switch] when the final position has a mode: the record
    it returns and the state it leaves. *)
Lemma press_mode_switch_run count p (current_mode : LightMode) :
  PRESS_COUNT_TO_MODE !! positions_after count p = Some current_mode →
  press_mode_switch count p
  = (Return (mode_switch_record count (positions_after count p)
               current_mode (time_time (world p))),
     mkProcess
       (mkController (state_manager (self p)) (positions_after count p)
          (last_color p))
       (state_after
          (StateManager.save_state (state_manager (self p))
             (positions_after count p) (value <$> last_color p))
          (world_after_presses count p))).
Proof.
  intros Hmode. unfold press_mode_switch.
  unfold bind at 1. rewrite press_loop_run.
  fold (positions_after count p). fold (world_after_presses count p).
  unfold_monad. simpl. rewrite Hmode. unfold ret. simpl.
  destruct (save_state_run (state_manager (self p)) (positions_after count p)
              (value <$> last_color p) (world_after_presses count p))
    as (b & w' & Hrun & _ & _ & _ & Htime & _).
  unfold state_after, last_color in *. rewrite !Hrun. simpl.
  rewrite Htime. reflexivity.
Qed.

(** [press_mode_switch] when it has none: [KeyError], after the presses
    and before the save. *)
Lemma press_mode_switch_raises count p :
  PRESS_COUNT_TO_MODE !! positions_after count p = None →
  press_mode_switch count p
  = (Raise KeyError,
     mkProcess
       (mkController (state_manager (self p)) (positions_after count p)
          (last_color p))
       (world_after_presses count p)).
Proof.
  intros Hmode. unfold press_mode_switch.
  unfold bind at 1. rewrite press_loop_run.
  fold (positions_after count p). fold (world_after_presses count p).
  unfold_monad. simpl. by rewrite Hmode.
Qed.

Lemma press_mode_switch_position count p :
  mode_position (state_after (press_mode_switch count) p)
  = positions_after count p.
Proof.
  unfold state_after.
  destruct (PRESS_COUNT_TO_MODE !! positions_after count p) as [m|] eqn:Hm.
  - by rewrite (press_mode_switch_run _ _ _ Hm).
  - by rewrite (press_mode_switch_raises _ _ Hm).
Qed.

Lemma positions_after_range count p :
  1 ≤ count → 1 ≤ positions_after count p ≤ 6.
Proof. intros Hc. apply cyclic_advance_iter_range. lia. Qed.

(** [set_mode] is the computation of the press count followed by
    [press_mode_switch], or by nothing at all. *)
Lemma set_mode_unfold (target_mode : LightMode) (target : Z) p :
  MODE_PRESS_COUNT !! target_mode = Some target →
  set_mode target_mode p
  = if presses_needed (mode_position p) target >? 0
    then press_mode_switch (presses_needed (mode_position p) target) p
    else (Return (mode_already_set_record target_mode (mode_position p)
                    (time_time (world p))), p).
Proof.
  intros Ht. unfold set_mode. unfold_monad. rewrite Ht. simpl.
  fold (mode_position p). by destruct (_ >? 0).
Qed.

(** From a position in 0..6, [set_mode] returns and leaves the controller
    on the target. *)
Lemma set_mode_reaches (target_mode : LightMode) (target : Z) p :
  MODE_PRESS_COUNT !! target_mode = Some target →
  0 ≤ mode_position p ≤ 6 →
  (∃ r, outcome_of (set_mode target_mode) p = Return r)
  ∧ mode_position (state_after (set_mode target_mode) p) = target.
Proof.
  intros Ht Hp.
  assert (1 ≤ target ≤ 6) as Hrange.
  { destruct (MODE_PRESS_COUNT_range target_mode) as (t & Ht' & ?).
    by simplify_eq. }
  pose proof (presses_needed_reaches _ _ Hp Hrange) as Hreach.
  unfold outcome_of, state_after. rewrite (set_mode_unfold _ _ _ Ht).
  destruct (Z.gtb_spec (presses_needed (mode_position p) target) 0) as [Hpos|Hzero].
  - assert (PRESS_COUNT_TO_MODE
              !! positions_after (presses_needed (mode_position p) target) p
            = Some target_mode) as Hm.
    { unfold positions_after. rewrite Hreach.
      by apply PRESS_COUNT_TO_MODE_inverse. }
    rewrite (press_mode_switch_run _ _ _ Hm). simpl. split; [by eexists|].
    unfold positions_after. by rewrite Hreach.
  - simpl. split; [by eexists|].
    replace (Z.to_nat (presses_needed (mode_position p) target)) with 0%nat
      in Hreach by lia.
    done.
Qed.

(** [press_mode_switch] with at least one press returns, from every
    position. *)
Lemma press_mode_switch_returns count p :
  1 ≤ count →
  ∃ current_mode,
    PRESS_COUNT_TO_MODE !! positions_after count p = Some current_mode.
Proof.
  intros Hc. apply PRESS_COUNT_TO_MODE_dom. by apply positions_after_range.
Qed.

(** What [set_mode] leaves alone, and that it returns from every state. *)
Lemma set_mode_frame (target_mode : LightMode) p :
  (∃ r, outcome_of (set_mode target_mode) p = Return r)
  ∧ state_manager (self (state_after (set_mode target_mode) p))
    = state_manager (self p)
  ∧ last_color (state_after (set_mode target_mode) p) = last_color p
  ∧ time_time (world (state_after (set_mode target_mode) p))
    = time_time (world p).
Proof.
  destruct (MODE_PRESS_COUNT_range target_mode) as (target & Ht & _).
  unfold outcome_of, state_after. rewrite (set_mode_unfold _ _ _ Ht).
  destruct (Z.gtb_spec (presses_needed (mode_position p) target) 0) as [Hpos|Hzero].
  - destruct (press_mode_switch_returns
                (presses_needed (mode_position p) target) p ltac:(lia))
      as (m & Hm).
    rewrite (press_mode_switch_run _ _ _ Hm). simpl.
    split; [by eexists|]. split; [done|]. split; [done|].
    match goal with
    | |- context [state_after (StateManager.save_state ?s ?c ?l) ?w] =>
        destruct (save_state_run s c l w)
          as (b & w' & Hrun & _ & _ & _ & Htime & _)
    end.
    unfold state_after. by rewrite Hrun.
  - simpl. split; [by eexists|]. done.
Qed.

Lemma press_color_switch_run (color : LightColor) p :
  press_color_switch color p
  = (Return (color_switch_record color (time_time (world p))),
     mkProcess
       (mkController (state_manager (self p)) 0 (Some color))
       (state_after
          (StateManager.save_state (state_manager (self p)) 0
             (Some (value color)))
          (emit_all
             (pulse_events (GPIO_AVAILABLE (world p)) (color_pin color)
                default_duration)
             (world p)))).
Proof.
  unfold press_color_switch.
  assert (({[ RED := PIN_SW1_RED; GREEN := PIN_SW2_GREEN;
              YELLOW := PIN_SW3_YELLOW ]} : gmap LightColor Z) !! color
          = Some (color_pin color)) as Hpin by (by destruct color).
  unfold dict_getitem. unfold bind at 1. rewrite Hpin. unfold ret at 1.
  unfold bind at 1. rewrite simulate_button_press_run.
  unfold_monad. simpl.
  match goal with
  | |- context [StateManager.save_state ?s ?c ?l ?w] =>
      destruct (save_state_run s c l w)
        as (b & w' & Hrun & _ & _ & _ & Htime & _)
  end.
  unfold state_after. rewrite !Hrun. simpl. by rewrite Htime.
Qed.

Lemma clear_state_run (sm : StateManager) (w : World) :
  ∃ b w',
    StateManager.clear_state sm w = (Return b, w')
    ∧ events w' = events w
    ∧ time_time w' = time_time w
    ∧ (default false (head (io_faults w)) = false →
       b = true ∧ files w' !! state_file sm = None)
    ∧ (files w !! state_file sm = None → b = true ∧ w' = w).
Proof.
  destruct w as [fs faults evs gpio t iso].
  unfold StateManager.clear_state, OS.path_exists, OS.remove, OS.syscall,
    next_fault, set_files.
  unfold_monad. simpl.
  destruct (fs !! state_file sm) as [content|] eqn:Hfile; simpl.
  - destruct faults as [|[] faults]; simpl; rewrite ?Hfile; simpl;
      (eexists _, _; split; [reflexivity|]);
      repeat split; simpl; try done; try congruence;
      apply lookup_delete_eq.
  - eexists _, _. repeat split; done.
Qed.

Lemma reset_run p :
  reset p
  = (Return (system_reset_record 0 (time_time (world p))),
     mkProcess
       (mkController (state_manager (self p)) 0 None)
       (state_after (StateManager.clear_state (state_manager (self p)))
          (world (state_after (set_mode OFF) p)))).
Proof.
  destruct (set_mode_frame OFF p) as ((r & Hret) & Hsm & _ & Htime).
  unfold outcome_of, state_after in *.
  unfold reset. unfold bind at 1.
  destruct (set_mode OFF p) as [o p1]. simpl in *. subst o.
  unfold_monad. simpl.
  destruct (clear_state_run (state_manager (self p1)) (world p1))
    as (b & w' & Hrun & _ & Htime' & _).
  rewrite <- Hsm. rewrite !Hrun. simpl. by rewrite Htime', Htime.
Qed.

(** The position stays in 0..6: every method keeps it there. *)
Lemma position_stays_in_range p :
  0 ≤ mode_position p ≤ 6 →
  (∀ color, mode_position (state_after (press_color_switch color) p) = 0)
  ∧ (∀ count, 0 ≤ mode_position (state_after (press_mode_switch count) p) ≤ 6)
  ∧ (∀ target_mode,
       1 ≤ mode_position (state_after (set_mode target_mode) p) ≤ 6)
  ∧ mode_position (state_after reset p) = 0.
Proof.
  intros Hp. split; [|split; [|split]].
  - intros color. unfold state_after. by rewrite press_color_switch_run.
  - intros count. rewrite press_mode_switch_position.
    destruct (decide (1 ≤ count)) as [Hc|Hc].
    + pose proof (positions_after_range count p Hc). lia.
    + unfold positions_after. by replace (Z.to_nat count) with 0%nat by lia.
  - intros target_mode.
    destruct (MODE_PRESS_COUNT_range target_mode) as (target & Ht & Hrange).
    destruct (set_mode_reaches target_mode target p Ht Hp) as [_ ->]. done.
  - unfold state_after. by rewrite reset_run.
Qed.

(** The count that [load_state] hands to the controller always denotes an
    integer in 0..6. *)
Lemma load_state_count_in_range (sm : StateManager) (w : World) :
  ∃ v z, load_state_result sm w !! "current_mode_press_count" = Some v
         ∧ int_value v = Some z
         ∧ 0 ≤ z ≤ 6.
Proof.
  assert (∃ v z, StateManager.default_state !! "current_mode_press_count" = Some v
                 ∧ int_value v = Some z ∧ 0 ≤ z ≤ 6) as Hdefault.
  { exists (PyInt 0), 0. split; [reflexivity|]. split; [reflexivity|lia]. }
  unfold load_state_result.
  destruct (files w !! state_file sm) as [[text|doc]|]; try done.
  destruct doc as [| | | | | |d]; try done.
  destruct (default false _); [done|].
  destruct (d !! "current_mode_press_count") as [v|]; [|done].
  destruct (StateManager.invalid_mode_count v) eqn:Hvalid; [done|].
  unfold StateManager.invalid_mode_count in Hvalid.
  destruct (int_value v) as [z|] eqn:Hz;
    [|by rewrite orb_true_r in Hvalid].
  exists v, z. split; [by rewrite lookup_insert_eq|]. split; [done|].
  apply orb_false_elim in Hvalid as [_ Hrange].
  apply orb_false_elim in Hrange as [Hlow Hhigh].
  destruct (Z.ltb_spec z 0); [done|]. destruct (Z.gtb_spec z 6); [done|lia].
Qed.

End Engine.

(** * The properties of the specification *)

(** ** Reaching a target mode *)

(** C1. For every current position in 1..6 and every target press count in
    1..6, the number of presses that [set_mode] computes lies in 0..5, that
    many cyclic advances from the current position end exactly on the
    target, and [set_mode] run from that position for the mode with that
    press count leaves the controller on the target. *)
Theorem presses_needed_reaches_target (current target : Z) :
  1 ≤ current ≤ 6 → 1 ≤ target ≤ 6 →
  0 ≤ presses_needed current target ≤ 5
  ∧ Nat.iter (Z.to_nat (presses_needed current target)) cyclic_advance current
    = target
  ∧ ∀ (target_mode : LightMode) (sm : StateManager)
      (color : option LightColor) (w : World),
      MODE_PRESS_COUNT !! target_mode = Some target →
      mode_position
        (state_after (set_mode target_mode)
           (mkProcess (mkController sm current color) w))
      = target.
Proof.
  intros Hc Ht. split; [by apply presses_needed_range|].
  split; [apply presses_needed_reaches; lia|].
  intros target_mode sm color w Hmode.
  apply (set_mode_reaches target_mode target); [done|].
  unfold mode_position. simpl. lia.
Qed.

Lemma presses_needed_reaches_target_witness :
  (1 ≤ 5 ≤ 6 ∧ 1 ≤ 2 ≤ 6)
  ∧ presses_needed 5 2 = 3
  ∧ Nat.iter (Z.to_nat (presses_needed 5 2)) cyclic_advance 5 = 2.
Proof.
  assert (1 ≤ 5 ≤ 6) as Hcurrent by lia.
  assert (1 ≤ 2 ≤ 6) as Htarget by lia.
  split; [done|]. split; [reflexivity|].
  apply (presses_needed_reaches_target 5 2 Hcurrent Htarget).
Defined.

(** C2. Every iteration of the loop of [press_mode_switch] moves the
    position by one cyclic advance, [(position mod 6) + 1], which takes 0
    to 1 and 6 to 1; the call as a whole moves it by [count] advances.
    From position 3, [press_mode_switch(4)] goes through 3, 4, 5, 6, 1,
    ends on position 1 and returns a record whose [total_mode_presses]
    is 1. *)
Theorem press_mode_switch_cyclic_advance :
  (∀ (count i : Z) (p : Process),
     mode_position (state_after (press_mode_switch_body count i) p)
     = mode_position p `mod` 6 + 1)
  ∧ cyclic_advance 0 = 1
  ∧ cyclic_advance 6 = 1
  ∧ (∀ (count : Z) (p : Process),
       mode_position (state_after (press_mode_switch count) p)
       = Nat.iter (Z.to_nat count) cyclic_advance (mode_position p))
  ∧ ∀ (sm : StateManager) (color : option LightColor) (w : World),
      let p := mkProcess (mkController sm 3 color) w in
      (λ k, mode_position
              (state_after (for_range k 0 (press_mode_switch_body 4)) p))
        <$> [0; 1; 2; 3; 4]%nat
      = [3; 4; 5; 6; 1]
      ∧ mode_position (state_after (press_mode_switch 4) p) = 1
      ∧ ∃ r, outcome_of (press_mode_switch 4) p = Return r
             ∧ r !! "total_mode_presses" = Some (PyInt 1)
             ∧ r !! "press_count" = Some (PyInt 4)
             ∧ r !! "current_mode" = Some (PyStr "breathe_colors").
Proof.
  split.
  { intros count i p. unfold state_after.
    by rewrite press_mode_switch_body_run. }
  split; [reflexivity|]. split; [reflexivity|].
  split; [apply press_mode_switch_position|].
  intros sm color w p. split.
  { unfold state_after. cbn [fmap list_fmap]. by rewrite !press_loop_run. }
  split.
  { by rewrite press_mode_switch_position. }
  assert (PRESS_COUNT_TO_MODE !! positions_after 4 p = Some BREATHE_COLORS)
    as Hm by reflexivity.
  unfold outcome_of. rewrite (press_mode_switch_run _ _ _ Hm).
  eexists. split; [reflexivity|]. by vm_compute.
Qed.

(** C3. From position 0, the sentinel for an unknown position, the number
    of presses [set_mode] computes is the press count of the target,
    whatever the target; [set_mode] then returns, with the controller on
    that press count. *)
Theorem set_mode_from_unknown_position (target_mode : LightMode)
    (sm : StateManager) (color : option LightColor) (w : World) :
  let p := mkProcess (mkController sm 0 color) w in
  (∀ target : Z, presses_needed 0 target = target)
  ∧ ∃ target : Z,
      MODE_PRESS_COUNT !! target_mode = Some target
      ∧ 1 ≤ target ≤ 6
      ∧ presses_needed (mode_position p) target = target
      ∧ mode_position (state_after (set_mode target_mode) p) = target
      ∧ ∃ r, outcome_of (set_mode target_mode) p = Return r
             ∧ r !! "total_mode_presses" = Some (PyInt target)
             ∧ r !! "press_count" = Some (PyInt target).
Proof.
  intros p. split; [apply presses_needed_from_zero|].
  destruct (MODE_PRESS_COUNT_range target_mode) as (target & Ht & Hrange).
  exists target. split; [done|]. split; [done|]. split; [done|].
  assert (0 ≤ mode_position p ≤ 6) as Hp by (unfold mode_position; simpl; lia).
  destruct (set_mode_reaches target_mode target p Ht Hp) as [_ Hpos].
  split; [done|].
  unfold outcome_of. rewrite (set_mode_unfold _ _ _ Ht).
  change (presses_needed (mode_position p) target) with target.
  destruct (Z.gtb_spec target 0) as [_|?]; [|lia].
  assert (positions_after target p = target) as Hafter.
  { assert (0 ≤ 0 ≤ 6) as Hzero by lia.
    exact (presses_needed_reaches 0 target Hzero Hrange). }
  assert (PRESS_COUNT_TO_MODE !! positions_after target p = Some target_mode)
    as Hm by (rewrite Hafter; by apply PRESS_COUNT_TO_MODE_inverse).
  rewrite (press_mode_switch_run _ _ _ Hm), Hafter.
  eexists. split; [reflexivity|]. by vm_compute.
Qed.

(** C4. [set_mode] is idempotent.  From every state with a position in
    0..6 and for every mode, the first [set_mode] returns; a second call
    for the same mode computes zero presses, changes nothing at all (no
    event is added to the trace, the position and the files stay as they
    are) and returns the record [mode_already_set] with the mode and the
    current position. *)
Theorem set_mode_idempotent (target_mode : LightMode) (p : Process) :
  0 ≤ mode_position p ≤ 6 →
  let p1 := state_after (set_mode target_mode) p in
  (∃ r1, outcome_of (set_mode target_mode) p = Return r1)
  ∧ (∃ target : Z,
       MODE_PRESS_COUNT !! target_mode = Some target
       ∧ presses_needed (mode_position p1) target = 0)
  ∧ set_mode target_mode p1
    = (Return {[ "action" := PyStr "mode_already_set";
                 "current_mode" := PyStr (value target_mode);
                 "total_mode_presses" := PyInt (mode_position p1);
                 "timestamp" := PyFloat (time_time (world p1)) ]},
       p1)
  ∧ events (world (state_after (set_mode target_mode) p1)) = events (world p1)
  ∧ mode_position (state_after (set_mode target_mode) p1) = mode_position p1.
Proof.
  intros Hp p1.
  destruct (MODE_PRESS_COUNT_range target_mode) as (target & Ht & Hrange).
  destruct (set_mode_reaches target_mode target p Ht Hp) as [Hret Hpos].
  fold p1 in Hpos.
  assert (presses_needed (mode_position p1) target = 0) as Hzero.
  { rewrite Hpos. unfold presses_needed.
    destruct (Z.eqb_spec target 0); [lia|]. by rewrite Z.eqb_refl. }
  assert (set_mode target_mode p1
          = (Return (mode_already_set_record target_mode (mode_position p1)
                       (time_time (world p1))), p1)) as Hsecond.
  { rewrite (set_mode_unfold _ _ _ Ht), Hzero. reflexivity. }
  split; [done|]. split; [by exists target|]. split; [done|].
  unfold state_after. by rewrite Hsecond.
Qed.

Lemma set_mode_idempotent_witness :
  0 ≤ mode_position (example_process 5 (Some RED) []) ≤ 6
  ∧ mode_position
      (state_after (set_mode COLOR_DURATION)
         (state_after (set_mode COLOR_DURATION)
            (example_process 5 (Some RED) [])))
    = mode_position
        (state_after (set_mode COLOR_DURATION)
           (example_process 5 (Some RED) [])).
Proof.
  assert (0 ≤ mode_position (example_process 5 (Some RED) []) ≤ 6) as Hp
    by (vm_compute; split; discriminate).
  split; [exact Hp|].
  apply (set_mode_idempotent COLOR_DURATION _ Hp).
Defined.

(** ** The state store *)

(** C5. Round trip of the store.  For every press count [p] in 0..6 and
    every colour [c], absent or a string (so in particular for null,
    "red", "green" and "yellow"): when [save_state(p, c)] returns [True]
    and the read that follows does not fail, [load_state()] returns
    exactly the dictionary with [current_mode_press_count] = [p] and
    [last_color_pressed] = [c]. *)
Theorem save_load_round_trip (sm : StateManager) (p : Z) (c : option string)
    (w w' : World) :
  0 ≤ p ≤ 6 →
  StateManager.save_state sm p c w = (Return true, w') →
  head (io_faults w') ≠ Some true →
  outcome_of (StateManager.load_state sm) w'
  = Return {[ "current_mode_press_count" := PyInt p;
              "last_color_pressed" := Py.of_optional_str c ]}.
Proof.
  intros Hp Hsave Hread.
  destruct (save_state_run sm p c w) as (b & w2 & Hrun & _ & _ & _ & _ & _ & Hfile).
  rewrite Hsave in Hrun. injection Hrun as <- <-.
  specialize (Hfile eq_refl). unfold state_document in Hfile.
  unfold outcome_of.
  erewrite load_state_document; [| exact Hfile | exact Hread | reflexivity |].
  - reflexivity.
  - unfold StateManager.invalid_mode_count. simpl.
    destruct (Z.ltb_spec p 0); [lia|]. destruct (Z.gtb_spec p 6); [lia|done].
Qed.

Lemma save_load_round_trip_witness :
  let w' := state_after (StateManager.save_state example_manager 3 (Some "red"))
              (example_world []) in
  0 ≤ 3 ≤ 6
  ∧ outcome_of (StateManager.load_state example_manager) w'
    = Return {[ "current_mode_press_count" := PyInt 3;
                "last_color_pressed" := PyStr "red" ]}.
Proof.
  intros w'.
  assert (0 ≤ 3 ≤ 6) as Hp by lia.
  split; [exact Hp|].
  apply (save_load_round_trip example_manager 3 (Some "red")
           (example_world []) w' Hp).
  - vm_compute. reflexivity.
  - vm_compute. discriminate.
Defined.

(** [load_state] degrades to the defaults: when the file is absent, when
    it does not parse, when it parses to something that is not a
    dictionary, when the dictionary has no [current_mode_press_count],
    when that count is neither an [int] nor a [bool], or is an [int]
    outside 0..6, and when the read fails. *)
Lemma load_state_defaults (sm : StateManager) (w : World) :
  files w !! state_file sm = None
  ∨ (∃ text, files w !! state_file sm = Some (NotJson text))
  ∨ (∃ doc, files w !! state_file sm = Some (Json doc) ∧ ∀ d, doc ≠ PyDict d)
  ∨ (∃ d, files w !! state_file sm = Some (Json (PyDict d))
          ∧ d !! "current_mode_press_count" = None)
  ∨ (∃ d v, files w !! state_file sm = Some (Json (PyDict d))
            ∧ d !! "current_mode_press_count" = Some v
            ∧ (∀ b, v ≠ PyBool b)
            ∧ (∀ z, v = PyInt z → ¬ 0 ≤ z ≤ 6))
  ∨ head (io_faults w) = Some true →
  outcome_of (StateManager.load_state sm) w
  = Return StateManager.default_state.
Proof.
  intros Hcases. rewrite load_state_outcome. f_equal.
  unfold load_state_result.
  destruct Hcases as [->|[[text ->]|[(doc & -> & Hdoc)|[(d & -> & Hd)|
                      [(d & v & -> & Hv & Hbool & Hint)|Hfault]]]]]; try done.
  - destruct doc; try done. by destruct (Hdoc d).
  - destruct (default false _); [done|]. by rewrite Hd.
  - destruct (default false _); [done|]. rewrite Hv.
    unfold StateManager.invalid_mode_count.
    destruct v as [|b|z| | | |]; simpl; try done;
      try (by destruct (Hbool b)).
    specialize (Hint z eq_refl).
    destruct (Z.ltb_spec z 0); [done|]. destruct (Z.gtb_spec z 6); [done|lia].
  - rewrite Hfault. simpl. by destruct (files w !! state_file sm) as [[|[]]|].
Qed.

(** A press count of 99 is one of these cases. *)
Lemma load_state_rejects_99 (sm : StateManager) (w : World)
    (d : gmap string pyval) :
  files w !! state_file sm = Some (Json (PyDict d)) →
  d !! "current_mode_press_count" = Some (PyInt 99) →
  outcome_of (StateManager.load_state sm) w
  = Return StateManager.default_state.
Proof.
  intros Hfile Hd. apply load_state_defaults.
  do 4 right. left. exists d, (PyInt 99).
  repeat split; [done|done|done|]. intros z [= <-]. lia.
Qed.

(** Keys other than the two that [load_state] reads do not change what it
    returns. *)
Lemma load_state_ignores_extra_keys (sm : StateManager) (w1 w2 : World)
    (d : gmap string pyval) (key : string) (v : pyval) :
  key ≠ "current_mode_press_count" → key ≠ "last_color_pressed" →
  files w1 !! state_file sm = Some (Json (PyDict d)) →
  files w2 !! state_file sm = Some (Json (PyDict (<[key := v]> d))) →
  io_faults w1 = io_faults w2 →
  outcome_of (StateManager.load_state sm) w2
  = outcome_of (StateManager.load_state sm) w1.
Proof.
  intros Hk1 Hk2 Hf1 Hf2 Hfaults. rewrite !load_state_outcome. f_equal.
  unfold load_state_result. rewrite Hf1, Hf2, Hfaults.
  by rewrite !lookup_insert_ne by done.
Qed.

(** C6, where the code departs from it.  [isinstance(True, int)] holds in
    Python, so a state file that holds
    [{"current_mode_press_count": true}], whose count is not an integer,
    passes the validation: [load_state] returns the boolean as the press
    count, and not the defaults. *)
Theorem load_state_accepts_boolean_count :
  outcome_of (StateManager.load_state example_manager) boolean_count_world
  = Return {[ "current_mode_press_count" := PyBool true;
              "last_color_pressed" := PyNone ]}
  ∧ outcome_of (StateManager.load_state example_manager) boolean_count_world
    ≠ Return StateManager.default_state.
Proof.
  assert (outcome_of (StateManager.load_state example_manager)
            boolean_count_world
          = Return {[ "current_mode_press_count" := PyBool true;
                      "last_color_pressed" := PyNone ]}) as Hrun
    by (vm_compute; reflexivity).
  split; [exact Hrun|].
  rewrite Hrun. intros Heq.
  apply (f_equal (λ o : outcome (gmap string pyval),
                    match o with
                    | Return d => d !! "current_mode_press_count"
                    | Raise _ => None
                    end)) in Heq.
  vm_compute in Heq. discriminate.
Qed.

(** ** Colour presses and reset *)

(** C7. [press_color_switch(color)], for every colour and from every
    state: pulses the pin bound to the colour once, sets the remembered
    colour to it, resets the position to 0 whatever it was, calls
    [save_state(0, color)] (so that, when the save succeeds, the state file
    holds position 0 and that colour), and returns the record
    [color_switch_pressed] with the colour, its pin and the time. *)
Theorem press_color_switch_resets_position (color : LightColor) (p : Process) :
  let sm := state_manager (self p) in
  let pulsed :=
    emit_all (pulse_events (GPIO_AVAILABLE (world p)) (color_pin color)
                default_duration) (world p) in
  ∃ p', press_color_switch color p
        = (Return {[ "action" := PyStr "color_switch_pressed";
                     "color" := PyStr (value color);
                     "gpio_pin" := PyInt (color_pin color);
                     "timestamp" := PyFloat (time_time (world p)) ]}, p')
    ∧ last_color p' = Some color
    ∧ mode_position p' = 0
    ∧ world p' = state_after (StateManager.save_state sm 0 (Some (value color)))
                   pulsed
    ∧ events (world p')
      = (events (world p)
         ++ pulse_events (GPIO_AVAILABLE (world p)) (color_pin color)
              default_duration)%list
    ∧ (outcome_of (StateManager.save_state sm 0 (Some (value color))) pulsed
       = Return true →
       files (world p') !! state_file sm
       = Some (Json (state_document 0 (Some (value color))
                       (datetime_now_isoformat (world p)))))
    ∧ color_pin RED = 17 ∧ color_pin GREEN = 18 ∧ color_pin YELLOW = 27.
Proof.
  intros sm pulsed. eexists. split; [apply press_color_switch_run|].
  fold sm. fold pulsed.
  destruct (save_state_run sm 0 (Some (value color)) pulsed)
    as (b & w' & Hrun & _ & Hevents & _ & _ & _ & Hfile).
  unfold outcome_of, state_after. rewrite Hrun. simpl.
  repeat split; try done.
  intros [= ->]. by apply Hfile.
Qed.

Lemma press_color_switch_resets_position_witness :
  let p := example_process 5 (Some GREEN) [] in
  outcome_of
    (StateManager.save_state example_manager 0 (Some (value RED)))
    (emit_all (pulse_events false (color_pin RED) default_duration) (world p))
  = Return true
  ∧ mode_position (state_after (press_color_switch RED) p) = 0
  ∧ last_color (state_after (press_color_switch RED) p) = Some RED
  ∧ files (world (state_after (press_color_switch RED) p))
      !! state_file example_manager
    = Some (Json (state_document 0 (Some "red") "2025-01-01T12:00:00")).
Proof.
  intros p.
  assert (outcome_of
            (StateManager.save_state example_manager 0 (Some (value RED)))
            (emit_all (pulse_events false (color_pin RED) default_duration)
               (world p))
          = Return true) as Hsave by (vm_compute; reflexivity).
  split; [exact Hsave|].
  destruct (press_color_switch_resets_position RED p)
    as (p' & Hrun & Hcolor & Hposition & _ & _ & Hfile & _).
  unfold state_after. rewrite Hrun. simpl.
  split; [exact Hposition|]. split; [exact Hcolor|]. exact (Hfile Hsave).
Defined.

(** C8. [reset()], from every state: runs [set_mode(OFF)] first, which
    returns; then, whatever position that left, the controller holds
    position 0 and no colour; [clear_state] is run on the world that
    [set_mode(OFF)] left, so the state file is absent afterwards whenever
    it was already absent or its removal does not fail; the record
    returned is [system_reset] with [lights_off] and [state_cleared] true
    and [current_mode_press_count] 0. *)
Theorem reset_clears_state (p : Process) :
  let sm := state_manager (self p) in
  let p1 := state_after (set_mode OFF) p in
  (∃ r1, outcome_of (set_mode OFF) p = Return r1)
  ∧ ∃ p', reset p
          = (Return {[ "action" := PyStr "system_reset";
                       "lights_off" := PyBool true;
                       "state_cleared" := PyBool true;
                       "current_mode_press_count" := PyInt 0;
                       "timestamp" := PyFloat (time_time (world p));
                       "message" := PyStr "System reset successfully. Lights are off and ready to start from beginning." ]},
             p')
      ∧ mode_position p' = 0
      ∧ last_color p' = None
      ∧ world p' = state_after (StateManager.clear_state sm) (world p1)
      ∧ events (world p') = events (world p1)
      ∧ (files (world p1) !! state_file sm = None
         ∨ head (io_faults (world p1)) ≠ Some true →
         files (world p') !! state_file sm = None).
Proof.
  intros sm p1.
  destruct (set_mode_frame OFF p) as (Hret & _).
  split; [exact Hret|].
  eexists. split; [apply reset_run|].
  fold sm. fold p1.
  destruct (clear_state_run sm (world p1))
    as (b & w' & Hrun & Hevents & _ & Hremoved & Habsent).
  unfold state_after. rewrite Hrun. simpl.
  repeat split; try done.
  intros [Hnone|Hfault].
  - destruct (Habsent Hnone) as [_ ->]. exact Hnone.
  - apply Hremoved. destruct (io_faults (world p1)) as [|[] ?]; simpl in *; done.
Qed.

Lemma reset_clears_state_witness :
  let p := example_process 3 (Some YELLOW) [] in
  head (io_faults (world (state_after (set_mode OFF) p))) ≠ Some true
  ∧ files (world (state_after reset p)) !! state_file example_manager = None
  ∧ mode_position (state_after reset p) = 0
  ∧ last_color (state_after reset p) = None.
Proof.
  intros p.
  assert (head (io_faults (world (state_after (set_mode OFF) p))) ≠ Some true)
    as Hfault by (vm_compute; discriminate).
  split; [exact Hfault|].
  destruct (reset_clears_state p)
    as (_ & p' & Hrun & Hposition & Hcolor & _ & _ & Hfile).
  unfold state_after. rewrite Hrun. simpl.
  split; [exact (Hfile (or_intror Hfault))|]. split; [exact Hposition|exact Hcolor].
Defined.

(** ** Failures *)

(** C9. A failed save is not fatal and nothing is rolled back.  Whenever
    the [save_state] call inside [press_color_switch] returns [False], the
    method still returns its record [color_switch_pressed] and the
    controller holds position 0 and the new colour; whenever the one
    inside [press_mode_switch(count)], [count >= 1], returns [False], the
    method still returns its record [mode_switch_pressed] and the
    controller holds the position after [count] advances, with the colour
    unchanged. *)
Theorem failed_save_is_not_fatal :
  (∀ (color : LightColor) (p : Process),
     outcome_of
       (StateManager.save_state (state_manager (self p)) 0 (Some (value color)))
       (emit_all (pulse_events (GPIO_AVAILABLE (world p)) (color_pin color)
                    default_duration) (world p))
     = Return false →
     ∃ p', press_color_switch color p
           = (Return (color_switch_record color (time_time (world p))), p')
       ∧ mode_position p' = 0
       ∧ last_color p' = Some color
       ∧ files (world p') !! state_file (state_manager (self p))
         = files (world p) !! state_file (state_manager (self p)))
  ∧ (∀ (count : Z) (p : Process),
       1 ≤ count →
       outcome_of
         (StateManager.save_state (state_manager (self p))
            (positions_after count p) (value <$> last_color p))
         (world_after_presses count p)
       = Return false →
       ∃ current_mode p',
         press_mode_switch count p
         = (Return (mode_switch_record count (positions_after count p)
                      current_mode (time_time (world p))), p')
         ∧ PRESS_COUNT_TO_MODE !! positions_after count p = Some current_mode
         ∧ mode_position p' = positions_after count p
         ∧ last_color p' = last_color p
         ∧ files (world p') !! state_file (state_manager (self p))
           = files (world p) !! state_file (state_manager (self p))).
Proof.
  split.
  - intros color p Hsave. eexists. split; [apply press_color_switch_run|].
    split; [done|]. split; [done|].
    unfold outcome_of, state_after in *. simpl.
    match goal with
    | |- context [StateManager.save_state ?s ?c ?l ?w] =>
        destruct (StateManager.save_state s c l w) as [o w'] eqn:Hrun
    end.
    simpl in Hsave. subst o. simpl.
    by rewrite (save_state_failure_keeps_file _ _ _ _ _ Hrun).
  - intros count p Hcount Hsave.
    destruct (press_mode_switch_returns count p Hcount) as (m & Hm).
    exists m. eexists. split; [by apply press_mode_switch_run|].
    split; [done|]. split; [done|]. split; [done|].
    unfold outcome_of, state_after in *. simpl.
    match goal with
    | |- context [StateManager.save_state ?s ?c ?l ?w] =>
        destruct (StateManager.save_state s c l w) as [o w'] eqn:Hrun
    end.
    simpl in Hsave. subst o. simpl.
    by rewrite (save_state_failure_keeps_file _ _ _ _ _ Hrun).
Qed.

Lemma failed_save_is_not_fatal_witness :
  let pc := example_process 5 None [true] in
  let pm := example_process 3 (Some RED) [false; false; true] in
  (outcome_of
     (StateManager.save_state example_manager 0 (Some (value GREEN)))
     (emit_all (pulse_events false (color_pin GREEN) default_duration) (world pc))
   = Return false
   ∧ mode_position (state_after (press_color_switch GREEN) pc) = 0
   ∧ last_color (state_after (press_color_switch GREEN) pc) = Some GREEN)
  ∧ (outcome_of
       (StateManager.save_state example_manager (positions_after 4 pm)
          (value <$> last_color pm))
       (world_after_presses 4 pm)
     = Return false
     ∧ mode_position (state_after (press_mode_switch 4) pm) = 1
     ∧ last_color (state_after (press_mode_switch 4) pm) = Some RED).
Proof.
  intros pc pm. split.
  - assert (outcome_of
              (StateManager.save_state (state_manager (self pc)) 0
                 (Some (value GREEN)))
              (emit_all (pulse_events (GPIO_AVAILABLE (world pc))
                           (color_pin GREEN) default_duration) (world pc))
            = Return false) as Hsave by (vm_compute; reflexivity).
    split; [exact Hsave|].
    destruct (proj1 failed_save_is_not_fatal GREEN pc Hsave)
      as (p' & Hrun & Hposition & Hcolor & _).
    unfold state_after. rewrite Hrun. simpl. split; [exact Hposition|exact Hcolor].
  - assert (1 ≤ 4) as Hcount by lia.
    assert (outcome_of
              (StateManager.save_state (state_manager (self pm))
                 (positions_after 4 pm) (value <$> last_color pm))
              (world_after_presses 4 pm)
            = Return false) as Hsave by (vm_compute; reflexivity).
    split; [exact Hsave|].
    destruct (proj2 failed_save_is_not_fatal 4 pm Hcount Hsave)
      as (m & p' & Hrun & _ & Hposition & Hcolor & _).
    unfold state_after. rewrite Hrun. simpl. split; [exact Hposition|exact Hcolor].
Defined.

(** C10. From a position in 0..6: with [count >= 1] the position after the
    loop of [press_mode_switch] lies in 1..6, the keys of
    [PRESS_COUNT_TO_MODE] are exactly 1..6, so the lookup finds a mode and
    the method returns; the method raises only when [count < 1] and the
    position is 0 (and then it does: the loop does not run and 0 is not a
    key). *)
Theorem press_mode_switch_lookup_succeeds (count : Z) (p : Process) :
  0 ≤ mode_position p ≤ 6 →
  (1 ≤ count →
   1 ≤ mode_position (state_after (press_mode_switch count) p) ≤ 6
   ∧ is_Some (PRESS_COUNT_TO_MODE
                !! mode_position (state_after (press_mode_switch count) p))
   ∧ ∃ r, outcome_of (press_mode_switch count) p = Return r)
  ∧ (∀ z : Z, is_Some (PRESS_COUNT_TO_MODE !! z) ↔ 1 ≤ z ≤ 6)
  ∧ ((∃ e, outcome_of (press_mode_switch count) p = Raise e)
     ↔ count < 1 ∧ mode_position p = 0)
  ∧ (count < 1 ∧ mode_position p = 0 →
     outcome_of (press_mode_switch count) p = Raise KeyError).
Proof.
  intros Hp.
  assert (count < 1 → positions_after count p = mode_position p) as Hnone.
  { intros Hc. unfold positions_after.
    by replace (Z.to_nat count) with 0%nat by lia. }
  assert (count < 1 ∧ mode_position p = 0 →
          outcome_of (press_mode_switch count) p = Raise KeyError) as Hraise.
  { intros [Hc Hzero]. unfold outcome_of.
    rewrite press_mode_switch_raises; [done|].
    by rewrite (Hnone Hc), Hzero. }
  split; [|split; [apply PRESS_COUNT_TO_MODE_dom|split; [split|exact Hraise]]].
  - intros Hc. rewrite press_mode_switch_position.
    pose proof (positions_after_range count p Hc) as Hrange.
    split; [done|]. split; [by apply PRESS_COUNT_TO_MODE_dom|].
    destruct (press_mode_switch_returns count p Hc) as (m & Hm).
    unfold outcome_of. rewrite (press_mode_switch_run _ _ _ Hm). by eexists.
  - intros [e He]. unfold outcome_of in He.
    destruct (PRESS_COUNT_TO_MODE !! positions_after count p) as [m|] eqn:Hm.
    { by rewrite (press_mode_switch_run _ _ _ Hm) in He. }
    assert (¬ 1 ≤ positions_after count p ≤ 6) as Hout.
    { intros Hin. apply PRESS_COUNT_TO_MODE_dom in Hin.
      rewrite Hm in Hin. by destruct Hin. }
    destruct (decide (1 ≤ count)) as [Hc|Hc].
    { by destruct (Hout (positions_after_range count p Hc)). }
    rewrite Hnone in Hout by lia. lia.
  - intros Hc. exists KeyError. by apply Hraise.
Qed.

Lemma press_mode_switch_lookup_succeeds_witness :
  let p := example_process 0 None [] in
  0 ≤ mode_position p ≤ 6
  ∧ (1 ≤ mode_position (state_after (press_mode_switch 2) p) ≤ 6)
  ∧ outcome_of (press_mode_switch 0) p = Raise KeyError.
Proof.
  intros p.
  assert (0 ≤ mode_position p ≤ 6) as Hp by (vm_compute; split; discriminate).
  split; [exact Hp|]. split.
  - assert (1 ≤ 2) as Hcount by lia.
    exact (proj1 (proj1 (press_mode_switch_lookup_succeeds 2 p Hp) Hcount)).
  - assert (0 < 1 ∧ mode_position p = 0) as Hzero
      by (split; [lia | reflexivity]).
    exact (proj2 (proj2 (proj2 (press_mode_switch_lookup_succeeds 0 p Hp))) Hzero).
Defined.


(** * Further properties of the code *)

(** ** The state store: what a save and a clear do to the files *)

Section StoreFiles.

Variable sm : StateManager.

(** Every run of [save_state], by the system call that fails, if any. *)
Lemma save_state_files (count : Z) (color : option string) (w w' : World)
    (b : bool) :
  StateManager.save_state sm count color w = (Return b, w') →
  (∀ path, path ≠ state_file sm → path ≠ state_file sm +:+ ".tmp" →
           files w' !! path = files w !! path)
  ∧ (b = true → files w' !! (state_file sm +:+ ".tmp") = None)
  ∧ (b = true →
     files w' !! state_file sm
     = Some (Json (state_document count color (datetime_now_isoformat w))))
  ∧ (b = false → files w' !! state_file sm = files w !! state_file sm).
Proof.
  pose proof (temp_file_distinct (state_file sm)) as Htemp.
  destruct w as [fs faults evs gpio t iso].
  unfold StateManager.save_state, OS.open_w, OS.json_dump, OS.replace,
    OS.syscall, next_fault, set_files, state_document.
  unfold_monad. simpl.
  destruct faults as [|[] faults]; simpl.
  - rewrite lookup_insert_eq. simpl. intros [= <- <-]. simpl.
    repeat split; try done.
    + intros path Hp Ht.
      by rewrite lookup_insert_ne, lookup_delete_ne, !lookup_insert_ne.
    + intros _. by rewrite lookup_insert_ne, lookup_delete_eq.
    + intros _. by rewrite lookup_insert_eq.
  - intros [= <- <-]. by repeat split.
  - destruct faults as [|[] faults]; simpl.
    + rewrite lookup_insert_eq. simpl. intros [= <- <-]. simpl.
      repeat split; try done.
      * intros path Hp Ht.
        by rewrite lookup_insert_ne, lookup_delete_ne, !lookup_insert_ne.
      * intros _. by rewrite lookup_insert_ne, lookup_delete_eq.
      * intros _. by rewrite lookup_insert_eq.
    + intros [= <- <-]. simpl. repeat split; try done.
      * intros path Hp Ht. by rewrite lookup_insert_ne.
      * intros _. by rewrite lookup_insert_ne.
    + rewrite lookup_insert_eq. simpl.
      destruct faults as [|[] faults]; simpl; intros [= <- <-]; simpl;
        repeat split; try done.
      * intros path Hp Ht.
        by rewrite lookup_insert_ne, lookup_delete_ne, !lookup_insert_ne.
      * intros _. by rewrite lookup_insert_ne, lookup_delete_eq.
      * intros _. by rewrite lookup_insert_eq.
      * intros path Hp Ht. by rewrite !lookup_insert_ne.
      * intros _. by rewrite !lookup_insert_ne.
      * intros path Hp Ht.
        by rewrite lookup_insert_ne, lookup_delete_ne, !lookup_insert_ne.
      * intros _. by rewrite lookup_insert_ne, lookup_delete_eq.
      * intros _. by rewrite lookup_insert_eq.
Qed.

(** Every run of [clear_state]. *)
Lemma clear_state_files (w w' : World) (b : bool) :
  StateManager.clear_state sm w = (Return b, w') →
  (∀ path, path ≠ state_file sm → files w' !! path = files w !! path)
  ∧ events w' = events w
  ∧ (b = true → files w' !! state_file sm = None)
  ∧ (b = false →
     files w' = files w ∧ is_Some (files w !! state_file sm)
     ∧ head (io_faults w) = Some true).
Proof.
  destruct w as [fs faults evs gpio t iso].
  unfold StateManager.clear_state, OS.path_exists, OS.remove, OS.syscall,
    next_fault, set_files.
  unfold_monad. simpl.
  destruct (fs !! state_file sm) as [content|] eqn:Hfile; simpl.
  - destruct faults as [|[] faults]; simpl; rewrite ?Hfile; simpl;
      intros [= <- <-]; simpl; repeat split; try done; eauto.
    + intros path Hp. by rewrite lookup_delete_ne.
    + intros _. apply lookup_delete_eq.
    + intros path Hp. by rewrite lookup_delete_ne.
    + intros _. apply lookup_delete_eq.
  - intros [= <- <-]. by repeat split.
Qed.

End StoreFiles.

(** X1. A save that fails does not lose the last good state: when
    [save_state(p1, c1)] has succeeded and a later [save_state(p2, c2)]
    returns [False], [load_state] still returns [p1] and [c1]. *)
Theorem failed_save_keeps_last_good_state (sm : StateManager)
    (p1 p2 : Z) (c1 c2 : option string) (w w1 w2 : World) :
  0 ≤ p1 ≤ 6 →
  StateManager.save_state sm p1 c1 w = (Return true, w1) →
  StateManager.save_state sm p2 c2 w1 = (Return false, w2) →
  head (io_faults w2) ≠ Some true →
  outcome_of (StateManager.load_state sm) w2
  = Return {[ "current_mode_press_count" := PyInt p1;
              "last_color_pressed" := Py.of_optional_str c1 ]}.
Proof.
  intros Hp Hfirst Hsecond Hread.
  destruct (save_state_files sm _ _ _ _ _ Hfirst) as (_ & _ & Hfile & _).
  destruct (save_state_files sm _ _ _ _ _ Hsecond) as (_ & _ & _ & Hkept).
  specialize (Hfile eq_refl). specialize (Hkept eq_refl).
  rewrite <- Hkept in Hfile. unfold state_document in Hfile.
  unfold outcome_of.
  erewrite load_state_document; [| exact Hfile | exact Hread | reflexivity |].
  - reflexivity.
  - unfold StateManager.invalid_mode_count. simpl.
    destruct (Z.ltb_spec p1 0); [lia|]. destruct (Z.gtb_spec p1 6); [lia|done].
Qed.

Lemma failed_save_keeps_last_good_state_witness :
  let w1 := state_after (StateManager.save_state example_manager 2 (Some "green"))
              (example_world [false; false; false; false; true]) in
  let w2 := state_after (StateManager.save_state example_manager 5 None) w1 in
  outcome_of (StateManager.save_state example_manager 5 None) w1 = Return false
  ∧ outcome_of (StateManager.load_state example_manager) w2
    = Return {[ "current_mode_press_count" := PyInt 2;
                "last_color_pressed" := PyStr "green" ]}.
Proof.
  intros w1 w2. split; [vm_compute; reflexivity|].
  assert (0 ≤ 2 ≤ 6) as Hp by lia.
  apply (failed_save_keeps_last_good_state example_manager 2 5
           (Some "green") None
           (example_world [false; false; false; false; true]) w1 w2 Hp).
  - vm_compute. reflexivity.
  - vm_compute. reflexivity.
  - vm_compute. discriminate.
Defined.

(** X2. [save_state] never raises, and whatever it returns it changes no
    file other than the state file and its temporary file; when it returns
    [True] the temporary file is gone. *)
Theorem save_state_touches_only_its_files (sm : StateManager) (count : Z)
    (color : option string) (w : World) :
  ∃ b w',
    StateManager.save_state sm count color w = (Return b, w')
    ∧ (∀ path, path ≠ state_file sm → path ≠ state_file sm +:+ ".tmp" →
               files w' !! path = files w !! path)
    ∧ (b = true → files w' !! (state_file sm +:+ ".tmp") = None)
    ∧ events w' = events w.
Proof.
  destruct (save_state_run sm count color w)
    as (b & w' & Hrun & _ & Hevents & _).
  exists b, w'. split; [exact Hrun|].
  destruct (save_state_files sm _ _ _ _ _ Hrun) as (Hother & Htemp & _).
  done.
Qed.

(** X3. The last save wins: after two successful saves [load_state]
    returns the count and colour of the second. *)
Theorem last_save_wins (sm : StateManager) (p1 p2 : Z)
    (c1 c2 : option string) (w w1 w2 : World) :
  0 ≤ p2 ≤ 6 →
  StateManager.save_state sm p1 c1 w = (Return true, w1) →
  StateManager.save_state sm p2 c2 w1 = (Return true, w2) →
  head (io_faults w2) ≠ Some true →
  outcome_of (StateManager.load_state sm) w2
  = Return {[ "current_mode_press_count" := PyInt p2;
              "last_color_pressed" := Py.of_optional_str c2 ]}.
Proof.
  intros Hp _ Hsecond Hread.
  destruct (save_state_files sm _ _ _ _ _ Hsecond) as (_ & _ & Hfile & _).
  specialize (Hfile eq_refl). unfold state_document in Hfile.
  unfold outcome_of.
  erewrite load_state_document; [| exact Hfile | exact Hread | reflexivity |].
  - reflexivity.
  - unfold StateManager.invalid_mode_count. simpl.
    destruct (Z.ltb_spec p2 0); [lia|]. destruct (Z.gtb_spec p2 6); [lia|done].
Qed.

Lemma last_save_wins_witness :
  let w1 := state_after (StateManager.save_state example_manager 2 (Some "green"))
              (example_world []) in
  let w2 := state_after (StateManager.save_state example_manager 5 None) w1 in
  outcome_of (StateManager.load_state example_manager) w2
  = Return {[ "current_mode_press_count" := PyInt 5;
              "last_color_pressed" := PyNone ]}.
Proof.
  intros w1 w2.
  assert (0 ≤ 5 ≤ 6) as Hp by lia.
  apply (last_save_wins example_manager 2 5 (Some "green") None
           (example_world []) w1 w2 Hp).
  - vm_compute. reflexivity.
  - vm_compute. reflexivity.
  - vm_compute. discriminate.
Defined.

(** X4. [save_state] does not check the range of the count: it saves a
    count outside 0..6 like any other, and the [load_state] that follows
    rejects the file and returns the defaults. *)
Theorem save_out_of_range_loads_defaults (sm : StateManager) (p : Z)
    (c : option string) (w w' : World) :
  ¬ 0 ≤ p ≤ 6 →
  StateManager.save_state sm p c w = (Return true, w') →
  files w' !! state_file sm
  = Some (Json (state_document p c (datetime_now_isoformat w)))
  ∧ outcome_of (StateManager.load_state sm) w'
    = Return StateManager.default_state.
Proof.
  intros Hp Hsave.
  destruct (save_state_files sm _ _ _ _ _ Hsave) as (_ & _ & Hfile & _).
  specialize (Hfile eq_refl). split; [exact Hfile|].
  apply load_state_defaults. do 4 right. left.
  unfold state_document in Hfile.
  eexists _, (PyInt p). split; [exact Hfile|]. split; [reflexivity|].
  split; [done|]. by intros z [= <-].
Qed.

Lemma save_out_of_range_loads_defaults_witness :
  let w' := state_after (StateManager.save_state example_manager 7 (Some "red"))
              (example_world []) in
  ¬ 0 ≤ 7 ≤ 6
  ∧ outcome_of (StateManager.load_state example_manager) w'
    = Return StateManager.default_state.
Proof.
  intros w'.
  assert (¬ 0 ≤ 7 ≤ 6) as Hp by lia.
  split; [exact Hp|].
  apply (save_out_of_range_loads_defaults example_manager 7 (Some "red")
           (example_world []) w' Hp).
  vm_compute. reflexivity.
Defined.

(** X5. [clear_state] never raises.  When it returns [True] the state file
    is absent, [load_state] returns the defaults, and a second
    [clear_state] returns [True] again and changes nothing. *)
Theorem clear_state_then_load_defaults (sm : StateManager) (w : World) :
  ∃ b w',
    StateManager.clear_state sm w = (Return b, w')
    ∧ (b = true →
       files w' !! state_file sm = None
       ∧ outcome_of (StateManager.state_file_exists sm) w' = Return false
       ∧ outcome_of (StateManager.load_state sm) w'
         = Return StateManager.default_state
       ∧ StateManager.clear_state sm w' = (Return true, w')).
Proof.
  destruct (clear_state_run sm w) as (b & w' & Hrun & _).
  exists b, w'. split; [exact Hrun|]. intros ->.
  destruct (clear_state_files sm _ _ _ Hrun) as (_ & _ & Habsent & _).
  specialize (Habsent eq_refl). split; [exact Habsent|]. split.
  { unfold outcome_of, StateManager.state_file_exists, OS.path_exists.
    simpl. by rewrite Habsent. }
  split.
  { apply load_state_defaults. by left. }
  destruct (clear_state_run sm w') as (b2 & w2 & Hrun2 & _ & _ & _ & Hsame).
  destruct (Hsame Habsent) as [-> ->]. exact Hrun2.
Qed.

Lemma clear_state_then_load_defaults_witness :
  let w := state_after (StateManager.save_state example_manager 4 None)
             (example_world []) in
  let w' := state_after (StateManager.clear_state example_manager) w in
  outcome_of (StateManager.clear_state example_manager) w = Return true
  ∧ outcome_of (StateManager.load_state example_manager) w'
    = Return StateManager.default_state.
Proof.
  intros w w'.
  destruct (clear_state_then_load_defaults example_manager w)
    as (b & w2 & Hrun & Hcleared).
  assert (StateManager.clear_state example_manager w = (Return true, w'))
    as Hrun' by (vm_compute; reflexivity).
  rewrite Hrun' in Hrun. injection Hrun as <- <-.
  split; [unfold outcome_of; by rewrite Hrun'|].
  by destruct (Hcleared eq_refl) as (_ & _ & Hload & _).
Defined.

(** X6. [clear_state] returns [False] only when the file exists and
    [os.remove] fails, and then it leaves every file as it was. *)
Theorem clear_state_failure_keeps_files (sm : StateManager) (w w' : World) :
  StateManager.clear_state sm w = (Return false, w') →
  files w' = files w
  ∧ is_Some (files w !! state_file sm)
  ∧ head (io_faults w) = Some true.
Proof.
  intros Hrun.
  destruct (clear_state_files sm _ _ _ Hrun) as (_ & _ & _ & Hfail).
  by apply Hfail.
Qed.

Lemma clear_state_failure_keeps_files_witness :
  let w := state_after (StateManager.save_state example_manager 4 None)
             (example_world [false; false; false; true]) in
  let w' := state_after (StateManager.clear_state example_manager) w in
  outcome_of (StateManager.clear_state example_manager) w = Return false
  ∧ files w' = files w.
Proof.
  intros w w'. split; [vm_compute; reflexivity|].
  apply (clear_state_failure_keeps_files example_manager w w').
  vm_compute. reflexivity.
Defined.

(** [load_state] changes neither the files nor the trace, and makes one
    system call when the state file exists and none when it does not. *)
Lemma load_state_frame (sm : StateManager) (w : World) :
  files (state_after (StateManager.load_state sm) w) = files w
  ∧ events (state_after (StateManager.load_state sm) w) = events w
  ∧ GPIO_AVAILABLE (state_after (StateManager.load_state sm) w)
    = GPIO_AVAILABLE w
  ∧ io_faults (state_after (StateManager.load_state sm) w)
    = match files w !! state_file sm with
      | Some _ => tail (io_faults w)
      | None => io_faults w
      end.
Proof.
  destruct w as [fs faults evs gpio t iso].
  unfold state_after, StateManager.load_state, OS.path_exists, OS.json_load,
    OS.syscall, next_fault, set_files, Py.contains, Py.getitem, Py.get_method.
  unfold_monad. simpl.
  destruct (fs !! state_file sm) as [content|] eqn:Hfile; simpl; [|done].
  rewrite ?bool_decide_eq_true_2 by eauto. simpl.
  destruct faults as [|[] faults]; simpl; try done; rewrite Hfile;
    (destruct content as [text|doc]; simpl; [done|]);
    (destruct doc as [| | | | s |l|d]; simpl; try done;
     [ by destruct (bool_decide _)
     | by destruct (existsb _ l)
     | destruct (d !! "current_mode_press_count") as [v|]; simpl;
       [by destruct (StateManager.invalid_mode_count v)|done] ]).
Qed.

(** The dictionary [load_state] returns always has both keys, and a count
    that denotes an integer in 0..6. *)
Lemma load_state_result_valid (sm : StateManager) (w : World) :
  ∃ count z color,
    load_state_result sm w !! "current_mode_press_count" = Some count
    ∧ load_state_result sm w !! "last_color_pressed" = Some color
    ∧ isinstance_int count = true
    ∧ int_value count = Some z
    ∧ 0 ≤ z ≤ 6.
Proof.
  assert (∃ count z color,
            StateManager.default_state !! "current_mode_press_count" = Some count
            ∧ StateManager.default_state !! "last_color_pressed" = Some color
            ∧ isinstance_int count = true
            ∧ int_value count = Some z ∧ 0 ≤ z ≤ 6) as (c0 & z0 & l0 & Hdefault).
  { exists (PyInt 0), 0, PyNone. repeat split; try reflexivity; lia. }
  unfold load_state_result.
  destruct (files w !! state_file sm) as [[text|doc]|];
    try (by eexists c0, z0, l0).
  destruct doc as [| | | | | |d]; try (by eexists c0, z0, l0).
  destruct (default false _); [by eexists c0, z0, l0|].
  destruct (d !! "current_mode_press_count") as [v|];
    [|by eexists c0, z0, l0].
  destruct (StateManager.invalid_mode_count v) eqn:Hvalid;
    [by eexists c0, z0, l0|].
  unfold StateManager.invalid_mode_count in Hvalid.
  apply orb_false_elim in Hvalid as [Hint Hrange].
  apply negb_false_iff in Hint.
  destruct (int_value v) as [z|] eqn:Hz; [|done].
  apply orb_false_elim in Hrange as [Hlow Hhigh].
  eexists v, z, _.
  split; [by rewrite lookup_insert_eq|].
  split; [by rewrite lookup_insert_ne, lookup_singleton_eq|].
  split; [done|]. split; [done|].
  destruct (Z.ltb_spec z 0); [done|]. destruct (Z.gtb_spec z 6); [done|lia].
Qed.

(** X7. [load_state] only reads: it leaves the files and the trace as they
    are, whatever the state file holds, so that a second [load_state]
    returns the same dictionary as the first when neither read fails. *)
Theorem load_state_reads_only (sm : StateManager) (w : World) :
  let w' := state_after (StateManager.load_state sm) w in
  files w' = files w
  ∧ events w' = events w
  ∧ (head (io_faults w) ≠ Some true → head (io_faults w') ≠ Some true →
     outcome_of (StateManager.load_state sm) w'
     = outcome_of (StateManager.load_state sm) w).
Proof.
  intros w'.
  destruct (load_state_frame sm w) as (Hfiles & Hevents & _ & _).
  fold w' in Hfiles, Hevents.
  split; [exact Hfiles|]. split; [exact Hevents|].
  intros Hfirst Hsecond. rewrite !load_state_outcome. f_equal.
  unfold load_state_result. rewrite Hfiles.
  destruct (files w !! state_file sm) as [[text|[| | | | | |d]]|]; try done.
  assert (∀ faults : list bool,
            head faults ≠ Some true → default false (head faults) = false)
    as Hnone by (by intros [|[] ?]).
  by rewrite (Hnone _ Hfirst), (Hnone _ Hsecond).
Qed.

Lemma load_state_reads_only_witness :
  let w := state_after (StateManager.save_state example_manager 4 (Some "red"))
             (example_world []) in
  let w' := state_after (StateManager.load_state example_manager) w in
  files w' = files w
  ∧ outcome_of (StateManager.load_state example_manager) w'
    = outcome_of (StateManager.load_state example_manager) w.
Proof.
  intros w w'.
  destruct (load_state_reads_only example_manager w) as (Hfiles & _ & Hsame).
  split; [exact Hfiles|].
  apply Hsame; vm_compute; discriminate.
Defined.

(** X8. Whatever the state file holds, [load_state] returns a dictionary
    with both keys, whose count is an instance of [int] that denotes an
    integer in 0..6. *)
Theorem load_state_returns_valid_count (sm : StateManager) (w : World) :
  ∃ d count z color,
    outcome_of (StateManager.load_state sm) w = Return d
    ∧ d !! "current_mode_press_count" = Some count
    ∧ d !! "last_color_pressed" = Some color
    ∧ isinstance_int count = true
    ∧ int_value count = Some z
    ∧ 0 ≤ z ≤ 6.
Proof.
  destruct (load_state_result_valid sm w) as (count & z & color & H).
  exists (load_state_result sm w), count, z, color.
  split; [apply load_state_outcome|exact H].
Qed.

(** ** Start of the controller and restart *)

Section Startup.


Lemma value_or_None_mode (m : option LightMode) :
  value_or_None m = from_option (λ m, PyStr (value m)) PyNone m.
Proof. by destruct m as [[]|]. Qed.

Lemma value_or_None_color (c : option LightColor) :
  value_or_None c = from_option (λ c, PyStr (value c)) PyNone c.
Proof. by destruct c as [[]|]. Qed.

Lemma LightMode_value_inj (m1 m2 : LightMode) : value m1 = value m2 → m1 = m2.
Proof. by destruct m1, m2. Qed.

(** [GPIOController()] on every world: it returns, with the controller
    built from what [load_state] returns. *)
Lemma init_run (module_dir : string) (w : World) :
  let sm := StateManager.__init__ module_dir "state.json" in
  ∃ count z color,
    load_state_result sm w !! "current_mode_press_count" = Some count
    ∧ load_state_result sm w !! "last_color_pressed" = Some color
    ∧ int_value count = Some z
    ∧ 0 ≤ z ≤ 6
    ∧ GPIOController.__init__ module_dir w
      = (Return (mkController sm z
                   (if Py.truthy color then LightColor_of color else None)),
         emit_all (setup_events (GPIO_AVAILABLE w))
           (state_after (StateManager.load_state sm) w)).
Proof.
  intros sm.
  destruct (load_state_result_valid sm w)
    as (count & z & color & Hcount & Hcolor & _ & Hz & Hrange).
  exists count, z, color. do 4 (split; [done|]).
  pose proof (load_state_outcome sm w) as Hout.
  destruct (load_state_frame sm w) as (_ & _ & Hgpio & _).
  unfold outcome_of, state_after in *.
  unfold GPIOController.__init__. fold sm. unfold bind at 1.
  destruct (StateManager.load_state sm w) as [o w1]. simpl in *. subst o.
  unfold dict_getitem. unfold bind at 1. rewrite Hcount. unfold ret at 1.
  unfold bind at 1. rewrite Hcolor. unfold ret at 1.
  unfold_monad. rewrite Hgpio, Hz. simpl.
  destruct w1 as [fs faults evs gpio' t iso]. simpl in *.
  destruct (GPIO_AVAILABLE w); simpl; unfold OS.gpio_setup_out, emit_all, emit;
    unfold_monad; simpl; rewrite <- ?app_assoc, ?app_nil_r; reflexivity.
Qed.

(** The controller that [GPIOController()] builds from a state file written
    by [save_state]. *)
Lemma init_after_save (module_dir : string) (w : World) (z : Z)
    (color : option LightColor) (stamp : string) :
  let sm := StateManager.__init__ module_dir "state.json" in
  files w !! state_file sm
  = Some (Json (state_document z (value <$> color) stamp)) →
  0 ≤ z ≤ 6 →
  head (io_faults w) ≠ Some true →
  outcome_of (GPIOController.__init__ module_dir) w
  = Return (mkController sm z color).
Proof.
  intros sm Hfile Hz Hread.
  destruct (init_run module_dir w)
    as (count & z' & c & Hcount & Hcolor & Hint & _ & Hrun).
  fold sm in Hcount, Hcolor, Hrun.
  unfold outcome_of. rewrite Hrun. simpl.
  unfold load_state_result in Hcount, Hcolor.
  unfold state_document in Hfile. rewrite Hfile in Hcount, Hcolor.
  assert (default false (head (io_faults w)) = false) as Hnone
    by (by destruct (io_faults w) as [|[] ?]).
  rewrite Hnone in Hcount, Hcolor.
  rewrite lookup_insert_eq in Hcount, Hcolor.
  assert (StateManager.invalid_mode_count (PyInt z) = false) as Hvalid.
  { unfold StateManager.invalid_mode_count. simpl.
    destruct (Z.ltb_spec z 0); [lia|]. destruct (Z.gtb_spec z 6); [lia|done]. }
  rewrite Hvalid in Hcount, Hcolor.
  rewrite lookup_insert_eq in Hcount.
  rewrite lookup_insert_ne, lookup_singleton_eq in Hcolor by done.
  rewrite lookup_insert_ne, lookup_insert_eq in Hcolor by done.
  simpl in Hcolor. injection Hcount as <-. injection Hcolor as <-.
  simpl in Hint. injection Hint as <-.
  do 2 f_equal. by destruct color as [[]|].
Qed.

End Startup.

(** X9. The path of the state file is absolute whenever the directory of
    the module is: an absolute [state_file] argument is kept as it is, and
    a relative one is put under the directory of the module; for the
    default argument that is [module_dir/state.json]. *)
Theorem state_file_path_is_absolute (module_dir name : string) :
  OS.path_isabs module_dir = true →
  OS.path_isabs
    (StateManager.get_state_file_path (StateManager.__init__ module_dir name))
  = true
  ∧ (OS.path_isabs name = true →
     StateManager.get_state_file_path (StateManager.__init__ module_dir name)
     = name)
  ∧ StateManager.get_state_file_path
      (StateManager.__init__ module_dir "state.json")
    = if OS.ends_with_sep module_dir then module_dir +:+ "state.json"
      else module_dir +:+ "/state.json".
Proof.
  intros Hdir.
  assert (∀ rest, OS.starts_with_sep (module_dir +:+ rest) = true) as Happ.
  { intros rest. destruct module_dir as [|a dir]; [done|]. exact Hdir. }
  assert (bool_decide (module_dir = EmptyString) = false) as Hne.
  { destruct module_dir; [done|]. by apply bool_decide_eq_false_2. }
  unfold StateManager.get_state_file_path, StateManager.__init__,
    OS.path_isabs, OS.path_join in *.
  split; [|split].
  - destruct (OS.starts_with_sep name) eqn:Hname; simpl; [exact Hname|].
    rewrite Hne. simpl. destruct (OS.ends_with_sep module_dir); apply Happ.
  - by intros ->.
  - simpl. rewrite Hne. simpl. by destruct (OS.ends_with_sep module_dir).
Qed.

Lemma state_file_path_is_absolute_witness :
  OS.path_isabs example_module_dir = true
  ∧ StateManager.__init__ example_module_dir "state.json" = example_manager.
Proof.
  assert (OS.path_isabs example_module_dir = true) as Hdir by reflexivity.
  split; [exact Hdir|].
  destruct (state_file_path_is_absolute example_module_dir "state.json" Hdir)
    as (_ & _ & Hpath).
  unfold StateManager.get_state_file_path in Hpath.
  destruct (StateManager.__init__ example_module_dir "state.json") as [path].
  simpl in Hpath. rewrite Hpath. reflexivity.
Defined.



(** X11. Restart after a colour press.  When the save inside
    [press_color_switch(color)] succeeds, a controller constructed
    afterwards on the same state file is in the state the old one was left
    in: position 0 and that colour. *)
Theorem restart_after_color_press (module_dir : string) (color : LightColor)
    (p : Process) :
  let p' := state_after (press_color_switch color) p in
  state_manager (self p) = StateManager.__init__ module_dir "state.json" →
  outcome_of
    (StateManager.save_state (state_manager (self p)) 0 (Some (value color)))
    (emit_all (pulse_events (GPIO_AVAILABLE (world p)) (color_pin color)
                 default_duration) (world p))
  = Return true →
  head (io_faults (world p')) ≠ Some true →
  outcome_of (GPIOController.__init__ module_dir) (world p') = Return (self p')
  ∧ mode_position p' = 0
  ∧ last_color p' = Some color.
Proof.
  intros p' Hsm Hsave Hread. unfold p', state_after in *.
  rewrite press_color_switch_run in *. simpl in *.
  split; [|done].
  unfold outcome_of, state_after in *.
  destruct (StateManager.save_state _ _ _ _) as [o w'] eqn:Hrun.
  simpl in *. subst o.
  destruct (save_state_files _ _ _ _ _ _ Hrun) as (_ & _ & Hfile & _).
  specialize (Hfile eq_refl). rewrite Hsm in *.
  by apply (init_after_save module_dir w' 0 (Some color) _ Hfile).
Qed.

Lemma restart_after_color_press_witness :
  let p := example_process 4 None [] in
  let p' := state_after (press_color_switch YELLOW) p in
  outcome_of (GPIOController.__init__ example_module_dir) (world p')
  = Return (mkController example_manager 0 (Some YELLOW)).
Proof.
  intros p p'.
  apply (restart_after_color_press example_module_dir YELLOW p).
  - reflexivity.
  - vm_compute. reflexivity.
  - vm_compute. discriminate.
Defined.

(** X12. Restart after mode presses.  When the save inside
    [press_mode_switch(count)], [count >= 1], succeeds, a controller
    constructed afterwards on the same state file is in the state the old
    one was left in: the position after [count] advances and the colour
    the old one remembered. *)
Theorem restart_after_mode_presses (module_dir : string) (count : Z)
    (p : Process) :
  let p' := state_after (press_mode_switch count) p in
  state_manager (self p) = StateManager.__init__ module_dir "state.json" →
  1 ≤ count →
  outcome_of
    (StateManager.save_state (state_manager (self p))
       (positions_after count p) (value <$> last_color p))
    (world_after_presses count p)
  = Return true →
  head (io_faults (world p')) ≠ Some true →
  outcome_of (GPIOController.__init__ module_dir) (world p') = Return (self p')
  ∧ mode_position p' = positions_after count p
  ∧ last_color p' = last_color p.
Proof.
  intros p' Hsm Hcount Hsave Hread. unfold p', state_after in *.
  destruct (press_mode_switch_returns count p Hcount) as (m & Hm).
  rewrite (press_mode_switch_run _ _ _ Hm) in *. simpl in *.
  split; [|done].
  pose proof (positions_after_range count p Hcount) as Hrange.
  unfold outcome_of, state_after in *.
  destruct (StateManager.save_state _ _ _ _) as [o w'] eqn:Hrun.
  simpl in *. subst o.
  destruct (save_state_files _ _ _ _ _ _ Hrun) as (_ & _ & Hfile & _).
  specialize (Hfile eq_refl). rewrite Hsm in *.
  apply (init_after_save module_dir w' _ (last_color p) _ Hfile); [lia|done].
Qed.

Lemma restart_after_mode_presses_witness :
  let p := example_process 5 (Some GREEN) [] in
  let p' := state_after (press_mode_switch 3) p in
  outcome_of (GPIOController.__init__ example_module_dir) (world p')
  = Return (mkController example_manager 2 (Some GREEN)).
Proof.
  intros p p'.
  assert (1 ≤ 3) as Hcount by lia.
  apply (restart_after_mode_presses example_module_dir 3 p).
  - reflexivity.
  - exact Hcount.
  - vm_compute. reflexivity.
  - vm_compute. discriminate.
Defined.

(** Without a state file the constructor gives the fresh controller. *)
Lemma init_without_file (module_dir : string) (w : World) :
  let sm := StateManager.__init__ module_dir "state.json" in
  files w !! state_file sm = None →
  outcome_of (GPIOController.__init__ module_dir) w
  = Return (mkController sm 0 None).
Proof.
  intros sm Hnone.
  destruct (init_run module_dir w)
    as (count & z & color & Hcount & Hcolor & Hint & _ & Hrun).
  fold sm in Hcount, Hcolor, Hrun.
  unfold outcome_of. rewrite Hrun. cbn [fst].
  unfold load_state_result in Hcount, Hcolor.
  rewrite Hnone in Hcount, Hcolor.
  injection Hcount as <-. injection Hcolor as <-.
  simpl in Hint. by injection Hint as <-.
Qed.

(** X13. Restart after a reset.  When the removal of the state file does
    not fail, a controller constructed after [reset()] on the same state
    file starts afresh, at position 0 with no colour, like the one that
    was reset. *)
Theorem restart_after_reset (module_dir : string) (p : Process) :
  let p' := state_after reset p in
  state_manager (self p) = StateManager.__init__ module_dir "state.json" →
  head (io_faults (world (state_after (set_mode OFF) p))) ≠ Some true →
  outcome_of (GPIOController.__init__ module_dir) (world p') = Return (self p')
  ∧ mode_position p' = 0
  ∧ last_color p' = None.
Proof.
  intros p' Hsm Hfault. unfold p', state_after at 1 2 3 4.
  rewrite reset_run. cbn [fst snd self world mode_position last_color
                            current_mode_press_count last_color_pressed].
  split; [|done].
  destruct (clear_state_run (state_manager (self p))
              (world (state_after (set_mode OFF) p)))
    as (b & w' & Hrun & _ & _ & Hremoved & _).
  assert (default false
            (head (io_faults (world (state_after (set_mode OFF) p)))) = false)
    as Hnone by (by destruct (io_faults _) as [|[] ?]).
  destruct (Hremoved Hnone) as [-> Habsent].
  unfold state_after at 1. rewrite Hrun. cbn [snd].
  rewrite Hsm in *. by apply init_without_file.
Qed.

Lemma restart_after_reset_witness :
  let p := example_process 2 (Some RED) [] in
  outcome_of (GPIOController.__init__ example_module_dir)
    (world (state_after reset p))
  = Return (mkController example_manager 0 None).
Proof.
  intros p.
  apply (restart_after_reset example_module_dir p).
  - reflexivity.
  - vm_compute. discriminate.
Defined.

(** X14. [reset()] does not look at what [clear_state] returns.  When the
    removal of the state file fails, [reset()] still returns its record
    with [state_cleared] true and the controller is at position 0 with no
    colour, but the state file is still there, with what [set_mode(OFF)]
    left in it. *)
Theorem reset_reports_cleared_when_removal_fails (p : Process) :
  let sm := state_manager (self p) in
  let p1 := state_after (set_mode OFF) p in
  is_Some (files (world p1) !! state_file sm) →
  head (io_faults (world p1)) = Some true →
  ∃ r p',
    reset p = (Return r, p')
    ∧ r !! "state_cleared" = Some (PyBool true)
    ∧ r !! "action" = Some (PyStr "system_reset")
    ∧ mode_position p' = 0
    ∧ last_color p' = None
    ∧ files (world p') = files (world p1).
Proof.
  intros sm p1 [content Hfile] Hfault.
  eexists _, _. split; [apply reset_run|].
  split; [reflexivity|]. split; [reflexivity|].
  split; [reflexivity|]. split; [reflexivity|].
  fold sm. fold p1. cbn [world].
  destruct (world p1) as [fs faults evs gpio t iso]. simpl in *.
  destruct faults as [|[] faults]; try done.
  unfold state_after, StateManager.clear_state, OS.path_exists, OS.remove,
    OS.syscall, next_fault, set_files.
  unfold_monad. simpl. rewrite Hfile. simpl. by rewrite Hfile.
Qed.

Lemma reset_reports_cleared_when_removal_fails_witness :
  let p := example_process 3 None [false; false; false; true] in
  is_Some (files (world (state_after reset p)) !! state_file example_manager)
  ∧ outcome_of (GPIOController.__init__ example_module_dir)
      (world (state_after reset p))
    = Return (mkController example_manager 6 None).
Proof.
  intros p.
  assert (is_Some (files (world (state_after (set_mode OFF) p))
                     !! state_file (state_manager (self p)))) as Hfile
    by (vm_compute; eauto).
  assert (head (io_faults (world (state_after (set_mode OFF) p))) = Some true)
    as Hfault by (vm_compute; reflexivity).
  destruct (reset_reports_cleared_when_removal_fails p Hfile Hfault)
    as (r & p' & Hrun & _ & _ & _ & _ & Hfiles).
  split; [|vm_compute; reflexivity].
  unfold state_after at 1. rewrite Hrun. cbn [snd].
  rewrite Hfiles. exact Hfile.
Defined.



(** ** The status *)

(** [get_status()] on every state. *)
Lemma get_status_run (p : Process) :
  ∃ d,
    get_status p = (Return d, p)
    ∧ d !! "current_mode_press_count" = Some (PyInt (mode_position p))
    ∧ d !! "last_color_pressed"
      = Some (from_option (λ c, PyStr (value c)) PyNone (last_color p))
    ∧ d !! "gpio_available" = Some (PyBool (GPIO_AVAILABLE (world p)))
    ∧ d !! "current_mode"
      = Some (from_option (λ m, PyStr (value m)) PyNone
                (PRESS_COUNT_TO_MODE !! mode_position p)).
Proof.
  unfold get_status. unfold_monad. eexists. split; [reflexivity|].
  fold (mode_position p). fold (last_color p).
  rewrite value_or_None_color, value_or_None_mode.
  repeat split; reflexivity.
Qed.

(** X16. [get_status()] never raises and changes nothing.  It reports the
    position and the remembered colour, and as current mode the mode whose
    press count is the position: mode [m] exactly when
    [MODE_PRESS_COUNT[m]] is the position, and [None] exactly when the
    position is not in 1..6. *)
Theorem get_status_reports_state (p : Process) :
  ∃ d,
    get_status p = (Return d, p)
    ∧ d !! "current_mode_press_count" = Some (PyInt (mode_position p))
    ∧ d !! "last_color_pressed"
      = Some (from_option (λ c, PyStr (value c)) PyNone (last_color p))
    ∧ d !! "gpio_available" = Some (PyBool (GPIO_AVAILABLE (world p)))
    ∧ (∀ m, d !! "current_mode" = Some (PyStr (value m))
            ↔ MODE_PRESS_COUNT !! m = Some (mode_position p))
    ∧ (d !! "current_mode" = Some PyNone ↔ ¬ 1 ≤ mode_position p ≤ 6).
Proof.
  destruct (get_status_run p) as (d & Hrun & Hcount & Hlast & Hgpio & Hmode).
  exists d. do 4 (split; [done|]). rewrite Hmode. split.
  - intros m. rewrite PRESS_COUNT_TO_MODE_inverse.
    destruct (PRESS_COUNT_TO_MODE !! mode_position p) as [m'|]; simpl.
    + split; [intros [= Hv]; by apply LightMode_value_inj in Hv as ->|].
      by intros [= ->].
    + split; intros; done.
  - pose proof (PRESS_COUNT_TO_MODE_dom (mode_position p)) as Hdom.
    destruct (PRESS_COUNT_TO_MODE !! mode_position p) as [m'|]; simpl.
    + split; [done|]. intros Hout. destruct Hout. apply Hdom. by eexists.
    + split; [|done]. intros _ Hin. apply Hdom in Hin. by destruct Hin.
Qed.

(** X17. After [set_mode(m)] from a position in 0..6, [get_status()]
    reports [m] as the current mode and the press count of [m] as the
    position, and the colour it reported before. *)
Theorem get_status_after_set_mode (target_mode : LightMode) (p : Process) :
  0 ≤ mode_position p ≤ 6 →
  let p' := state_after (set_mode target_mode) p in
  ∃ d target,
    outcome_of get_status p' = Return d
    ∧ MODE_PRESS_COUNT !! target_mode = Some target
    ∧ d !! "current_mode" = Some (PyStr (value target_mode))
    ∧ d !! "current_mode_press_count" = Some (PyInt target)
    ∧ d !! "last_color_pressed"
      = Some (from_option (λ c, PyStr (value c)) PyNone (last_color p)).
Proof.
  intros Hp p'.
  destruct (MODE_PRESS_COUNT_range target_mode) as (target & Ht & _).
  destruct (set_mode_reaches target_mode target p Ht Hp) as [_ Hpos].
  destruct (set_mode_frame target_mode p) as (_ & _ & Hcolor & _).
  fold p' in Hpos, Hcolor.
  destruct (get_status_run p') as (d & Hrun & Hcount & Hlast & _ & Hmode).
  exists d, target. unfold outcome_of. rewrite Hrun.
  split; [done|]. split; [done|].
  apply PRESS_COUNT_TO_MODE_inverse in Ht.
  split; [by rewrite Hmode, Hpos, Ht|].
  split; [by rewrite Hcount, Hpos|]. by rewrite Hlast, Hcolor.
Qed.

Lemma get_status_after_set_mode_witness :
  let p := example_process 5 (Some GREEN) [] in
  0 ≤ mode_position p ≤ 6
  ∧ ∃ d, outcome_of get_status (state_after (set_mode COLOR_DURATION) p)
         = Return d
         ∧ d !! "current_mode" = Some (PyStr "color_duration").
Proof.
  intros p.
  assert (0 ≤ mode_position p ≤ 6) as Hp by (vm_compute; split; discriminate).
  split; [exact Hp|].
  destruct (get_status_after_set_mode COLOR_DURATION p Hp)
    as (d & target & Hrun & _ & Hmode & _).
  exists d. split; [exact Hrun|exact Hmode].
Defined.

(** X18. After a colour press, and after a reset, [get_status()] reports
    position 0 and no current mode; after the colour press it reports the
    colour pressed, after the reset no colour. *)
Theorem get_status_after_color_press_and_reset (p : Process) :
  (∀ color, ∃ d,
     outcome_of get_status (state_after (press_color_switch color) p) = Return d
     ∧ d !! "current_mode_press_count" = Some (PyInt 0)
     ∧ d !! "current_mode" = Some PyNone
     ∧ d !! "last_color_pressed" = Some (PyStr (value color)))
  ∧ ∃ d,
      outcome_of get_status (state_after reset p) = Return d
      ∧ d !! "current_mode_press_count" = Some (PyInt 0)
      ∧ d !! "current_mode" = Some PyNone
      ∧ d !! "last_color_pressed" = Some PyNone.
Proof.
  split.
  - intros color.
    destruct (get_status_run (state_after (press_color_switch color) p))
      as (d & Hrun & Hcount & Hlast & _ & Hmode).
    unfold state_after in *. rewrite press_color_switch_run in *.
    exists d. unfold outcome_of. rewrite Hrun.
    split; [done|]. split; [exact Hcount|]. split; [exact Hmode|exact Hlast].
  - destruct (get_status_run (state_after reset p))
      as (d & Hrun & Hcount & Hlast & _ & Hmode).
    unfold state_after in *. rewrite reset_run in *.
    exists d. unfold outcome_of. rewrite Hrun.
    split; [done|]. split; [exact Hcount|]. split; [exact Hmode|exact Hlast].
Qed.

(** ** The trace: presses, delays and levels of the pins *)

Section Trace.

Implicit Types (p : Process) (evs : list io_event) (pin count : Z).

(** The events each method adds to the trace. *)
Lemma press_mode_switch_events count p :
  events (world (state_after (press_mode_switch count) p))
  = (events (world p)
     ++ press_loop_events (GPIO_AVAILABLE (world p)) count (Z.to_nat count) 0)%list.
Proof.
  unfold state_after.
  destruct (PRESS_COUNT_TO_MODE !! positions_after count p) as [m|] eqn:Hm.
  - rewrite (press_mode_switch_run _ _ _ Hm). cbn [snd world].
    match goal with
    | |- context [state_after (StateManager.save_state ?s ?c ?l) ?w] =>
        destruct (save_state_run s c l w) as (b & w' & Hrun & _ & Hevents & _)
    end.
    unfold state_after. rewrite Hrun. cbn [snd]. by rewrite Hevents.
  - by rewrite (press_mode_switch_raises _ _ Hm).
Qed.

Lemma set_mode_events (target_mode : LightMode) (target : Z) p :
  MODE_PRESS_COUNT !! target_mode = Some target →
  events (world (state_after (set_mode target_mode) p))
  = (events (world p)
     ++ press_loop_events (GPIO_AVAILABLE (world p))
          (presses_needed (mode_position p) target)
          (Z.to_nat (presses_needed (mode_position p) target)) 0)%list.
Proof.
  intros Ht.
  pose proof (press_mode_switch_events
                (presses_needed (mode_position p) target) p) as Hpress.
  unfold state_after in *. rewrite (set_mode_unfold _ _ _ Ht).
  destruct (Z.gtb_spec (presses_needed (mode_position p) target) 0)
    as [Hpos|Hzero]; [exact Hpress|].
  replace (Z.to_nat (presses_needed (mode_position p) target)) with 0%nat
    by lia.
  simpl. by rewrite app_nil_r.
Qed.

Lemma press_color_switch_events (color : LightColor) p :
  events (world (state_after (press_color_switch color) p))
  = (events (world p)
     ++ pulse_events (GPIO_AVAILABLE (world p)) (color_pin color)
          default_duration)%list.
Proof.
  unfold state_after. rewrite press_color_switch_run. cbn [snd world].
  match goal with
  | |- context [state_after (StateManager.save_state ?s ?c ?l) ?w] =>
      destruct (save_state_run s c l w) as (b & w' & Hrun & _ & Hevents & _)
  end.
  unfold state_after. rewrite Hrun. cbn [snd]. by rewrite Hevents.
Qed.

Lemma reset_events p :
  events (world (state_after reset p))
  = events (world (state_after (set_mode OFF) p)).
Proof.
  unfold state_after at 1. rewrite reset_run. cbn [snd world].
  destruct (clear_state_run (state_manager (self p))
              (world (state_after (set_mode OFF) p)))
    as (b & w' & Hrun & Hevents & _).
  unfold state_after at 1. rewrite Hrun. cbn [snd]. exact Hevents.
Qed.

(** Counting the presses. *)
Lemma presses_on_app pin evs1 evs2 :
  presses_on pin (evs1 ++ evs2) = (presses_on pin evs1 + presses_on pin evs2)%nat.
Proof. unfold presses_on. by rewrite List.filter_app, length_app. Qed.

Lemma presses_on_pulse (gpio : bool) pin (pin' : Z) (duration : Q) :
  presses_on pin (pulse_events gpio pin' duration)
  = if gpio && (pin' =? pin) then 1%nat else 0%nat.
Proof.
  unfold presses_on, pulse_events. destruct gpio; simpl; [|done].
  by destruct (pin' =? pin).
Qed.

Lemma presses_on_gap pin (b : bool) :
  presses_on pin (if b then [TimeSleep (1 # 50)] else []) = 0%nat.
Proof. by destruct b. Qed.

Lemma presses_on_loop (gpio : bool) pin count (n : nat) (i : Z) :
  presses_on pin (press_loop_events gpio count n i)
  = if gpio && (PIN_SW4_MODE =? pin) then n else 0%nat.
Proof.
  revert i. induction n as [|n IH]; intros i.
  - by destruct (gpio && _).
  - cbn [press_loop_events].
    rewrite !presses_on_app, presses_on_pulse, presses_on_gap, IH.
    by destruct (gpio && _).
Qed.

(** The writes to the GPIO. *)
Lemma gpio_writes_app evs1 evs2 :
  gpio_writes (evs1 ++ evs2) = (gpio_writes evs1 ++ gpio_writes evs2)%list.
Proof. apply List.filter_app. Qed.

Lemma gpio_writes_loop_simulation count (n : nat) (i : Z) :
  gpio_writes (press_loop_events false count n i) = [].
Proof.
  revert i. induction n as [|n IH]; intros i; [done|].
  cbn [press_loop_events]. rewrite !gpio_writes_app, IH.
  by destruct (i <? count - 1).
Qed.

(** The level of a pin. *)
Lemma pin_level_app pin (level : option gpio_level) evs1 evs2 :
  pin_level pin level (evs1 ++ evs2)
  = pin_level pin (pin_level pin level evs1) evs2.
Proof. apply fold_left_app. Qed.

Lemma pin_level_pulse (gpio : bool) pin (pin' : Z) (duration : Q)
    (level : option gpio_level) :
  pin_level pin level (pulse_events gpio pin' duration)
  = if gpio && (pin' =? pin) then Some HIGH else level.
Proof.
  unfold pin_level, pulse_events. destruct gpio; simpl; [|done].
  by destruct (pin' =? pin).
Qed.

Lemma pin_level_loop (gpio : bool) pin count (n : nat) (i : Z)
    (level : option gpio_level) :
  pin_level pin level (press_loop_events gpio count n i) = level
  ∨ pin_level pin level (press_loop_events gpio count n i) = Some HIGH.
Proof.
  revert i level. induction n as [|n IH]; intros i level; [by left|].
  cbn [press_loop_events]. rewrite !pin_level_app, pin_level_pulse.
  assert (∀ l, pin_level pin l (if i <? count - 1 then [TimeSleep (1 # 50)]
                                else []) = l) as Hgap
    by (intros l; by destruct (i <? count - 1)).
  rewrite Hgap.
  destruct (IH (i + 1) (if gpio && (PIN_SW4_MODE =? pin) then Some HIGH
                        else level)) as [-> | ->]; [|by right].
  destruct (gpio && _); [by right | by left].
Qed.

Lemma pin_level_setup (gpio : bool) pin (level : option gpio_level) :
  pin_level pin level (setup_events gpio) = level
  ∨ pin_level pin level (setup_events gpio) = Some HIGH.
Proof.
  unfold pin_level, setup_events. destruct gpio; cbn [fold_left]; [|by left].
  destruct (PIN_SW4_MODE =? pin); [by right|].
  destruct (PIN_SW3_YELLOW =? pin); [by right|].
  destruct (PIN_SW2_GREEN =? pin); [by right|].
  destruct (PIN_SW1_RED =? pin); [by right | by left].
Qed.

Lemma buttons_released_app evs1 evs2 :
  buttons_released evs1 →
  (∀ pin level, pin_level pin level evs2 = level
                ∨ pin_level pin level evs2 = Some HIGH) →
  buttons_released (evs1 ++ evs2).
Proof.
  intros H1 H2 pin. rewrite pin_level_app.
  destruct (H2 pin (pin_level pin None evs1)) as [-> | ->]; [apply H1|done].
Qed.

(** The delays between the presses. *)
Lemma sleeps_of_app (seconds : Q) evs1 evs2 :
  sleeps_of seconds (evs1 ++ evs2)
  = (sleeps_of seconds evs1 + sleeps_of seconds evs2)%nat.
Proof. unfold sleeps_of. by rewrite List.filter_app, length_app. Qed.

Lemma sleeps_of_gap_loop (gpio : bool) count (n : nat) (i : Z) :
  sleeps_of (1 # 50) (press_loop_events gpio count n i)
  = Z.to_nat (Z.max 0 (Z.min (i + Z.of_nat n) (count - 1) - i)).
Proof.
  revert i. induction n as [|n IH]; intros i.
  - change (sleeps_of (1 # 50) (press_loop_events gpio count 0 i)) with 0%nat.
    lia.
  - cbn [press_loop_events]. rewrite !sleeps_of_app, IH.
    assert (sleeps_of (1 # 50)
              (pulse_events gpio PIN_SW4_MODE default_duration) = 0%nat)
      as -> by (by destruct gpio).
    assert (sleeps_of (1 # 50)
              (if i <? count - 1 then [TimeSleep (1 # 50)] else [])
            = if i <? count - 1 then 1%nat else 0%nat) as ->
      by (by destruct (i <? count - 1)).
    destruct (Z.ltb_spec i (count - 1)); lia.
Qed.

Lemma last_loop (gpio : bool) count (n : nat) (i : Z) :
  i + Z.of_nat (S n) = count →
  last (press_loop_events gpio count (S n) i)
  = Some (TimeSleep (if gpio then 1 # 10 else default_duration)).
Proof.
  revert i. induction n as [|n IH]; intros i Hi.
  - cbn [press_loop_events].
    destruct (Z.ltb_spec i (count - 1)); [lia|].
    rewrite !app_nil_r. by destruct gpio.
  - change (press_loop_events gpio count (S (S n)) i)
      with (pulse_events gpio PIN_SW4_MODE default_duration
            ++ (if i <? count - 1 then [TimeSleep (1 # 50)] else [])
            ++ press_loop_events gpio count (S n) (i + 1))%list.
    rewrite !last_app, IH by lia. done.
Qed.

End Trace.

(** X19. [press_mode_switch(count)] presses the mode pin, and only it:
    with the GPIO available it adds [count] presses of pin 22 (none for a
    count below 1) and no press of any other pin; in simulation mode it
    adds no press at all.  This holds also when the call raises. *)
Theorem press_mode_switch_presses_mode_pin (count : Z) (p : Process) (pin : Z) :
  presses_on pin (events (world (state_after (press_mode_switch count) p)))
  = (presses_on pin (events (world p))
     + if GPIO_AVAILABLE (world p) && (PIN_SW4_MODE =? pin)%Z
       then Z.to_nat count else 0)%nat.
Proof.
  rewrite press_mode_switch_events, presses_on_app. f_equal.
  apply presses_on_loop.
Qed.

(** X20. [set_mode], from a position in 0..6, presses the mode pin exactly
    the computed number of times, which is at most 6, and presses no other
    pin; a colour press presses the pin of its colour once and no other
    pin. *)
Theorem set_mode_presses_as_computed (target_mode : LightMode) (p : Process) :
  0 ≤ mode_position p ≤ 6 →
  ∃ target,
    MODE_PRESS_COUNT !! target_mode = Some target
    ∧ 0 ≤ presses_needed (mode_position p) target ≤ 6
    ∧ (∀ pin,
         presses_on pin (events (world (state_after (set_mode target_mode) p)))
         = (presses_on pin (events (world p))
            + if GPIO_AVAILABLE (world p) && (PIN_SW4_MODE =? pin)%Z
              then Z.to_nat (presses_needed (mode_position p) target)
              else 0)%nat)
    ∧ ∀ color pin,
        presses_on pin
          (events (world (state_after (press_color_switch color) p)))
        = (presses_on pin (events (world p))
           + if GPIO_AVAILABLE (world p) && (color_pin color =? pin)%Z
             then 1 else 0)%nat.
Proof.
  intros Hp.
  destruct (MODE_PRESS_COUNT_range target_mode) as (target & Ht & Hrange).
  exists target. split; [done|]. split.
  { unfold presses_needed.
    destruct (Z.eqb_spec (mode_position p) 0); [lia|].
    destruct (Z.eqb_spec target (mode_position p)); [lia|].
    destruct (Z.gtb_spec target (mode_position p)); lia. }
  split.
  - intros pin. rewrite (set_mode_events _ _ _ Ht), presses_on_app. f_equal.
    apply presses_on_loop.
  - intros color pin.
    rewrite press_color_switch_events, presses_on_app. f_equal.
    apply presses_on_pulse.
Qed.

Lemma set_mode_presses_as_computed_witness :
  let p := mkProcess (mkController example_manager 5 None)
             (mkWorld ∅ [] [] true (1700000000 # 1) "2025-01-01T12:00:00") in
  0 ≤ mode_position p ≤ 6
  ∧ presses_on PIN_SW4_MODE
      (events (world (state_after (set_mode COLOR_DURATION) p)))
    = 3%nat.
Proof.
  intros p.
  assert (0 ≤ mode_position p ≤ 6) as Hp by (vm_compute; split; discriminate).
  split; [exact Hp|].
  destruct (set_mode_presses_as_computed COLOR_DURATION p Hp)
    as (target & Ht & _ & Hpresses & _).
  rewrite Hpresses. injection Ht as <-. reflexivity.
Defined.

(** X21. In simulation mode no method writes to the GPIO: a colour press,
    mode presses, [set_mode], [reset] and the constructor leave the writes
    in the trace as they were. *)
Theorem simulation_mode_never_writes_gpio (p : Process) :
  GPIO_AVAILABLE (world p) = false →
  (∀ color,
     gpio_writes (events (world (state_after (press_color_switch color) p)))
     = gpio_writes (events (world p)))
  ∧ (∀ count,
       gpio_writes (events (world (state_after (press_mode_switch count) p)))
       = gpio_writes (events (world p)))
  ∧ (∀ target_mode,
       gpio_writes (events (world (state_after (set_mode target_mode) p)))
       = gpio_writes (events (world p)))
  ∧ gpio_writes (events (world (state_after reset p)))
    = gpio_writes (events (world p))
  ∧ ∀ module_dir,
      gpio_writes
        (events (state_after (GPIOController.__init__ module_dir) (world p)))
      = gpio_writes (events (world p)).
Proof.
  intros Hsim.
  assert (∀ target_mode,
            gpio_writes (events (world (state_after (set_mode target_mode) p)))
            = gpio_writes (events (world p))) as Hset.
  { intros target_mode.
    destruct (MODE_PRESS_COUNT_range target_mode) as (target & Ht & _).
    rewrite (set_mode_events _ _ _ Ht), gpio_writes_app, Hsim.
    by rewrite gpio_writes_loop_simulation, app_nil_r. }
  split; [|split; [|split; [exact Hset|split]]].
  - intros color.
    rewrite press_color_switch_events, gpio_writes_app, Hsim.
    by rewrite app_nil_r.
  - intros count.
    rewrite press_mode_switch_events, gpio_writes_app, Hsim.
    by rewrite gpio_writes_loop_simulation, app_nil_r.
  - rewrite reset_events. apply Hset.
  - intros module_dir.
    destruct (init_run module_dir (world p)) as (c & z & l & _ & _ & _ & _ & Hrun).
    destruct (load_state_frame
                (StateManager.__init__ module_dir "state.json") (world p))
      as (_ & Hevents & _).
    unfold state_after at 1. rewrite Hrun. cbn [snd].
    unfold emit_all. cbn [events]. rewrite Hevents, Hsim. simpl.
    by rewrite app_nil_r.
Qed.

Lemma simulation_mode_never_writes_gpio_witness :
  let p := example_process 2 None [] in
  GPIO_AVAILABLE (world p) = false
  ∧ gpio_writes (events (world (state_after reset p))) = [].
Proof.
  intros p.
  assert (GPIO_AVAILABLE (world p) = false) as Hsim by reflexivity.
  split; [exact Hsim|].
  destruct (simulation_mode_never_writes_gpio p Hsim) as (_ & _ & _ & Hreset & _).
  rewrite Hreset. reflexivity.
Defined.

(** X22. No button is left pressed.  When no pin is held LOW before a
    call, none is after it: every press that a colour press, mode presses,
    [set_mode] or [reset] makes ends with the pin back HIGH, and the
    constructor drives the four pins HIGH. *)
Theorem buttons_are_released_after_every_call (p : Process) :
  buttons_released (events (world p)) →
  (∀ color,
     buttons_released
       (events (world (state_after (press_color_switch color) p))))
  ∧ (∀ count,
       buttons_released
         (events (world (state_after (press_mode_switch count) p))))
  ∧ (∀ target_mode,
       buttons_released
         (events (world (state_after (set_mode target_mode) p))))
  ∧ buttons_released (events (world (state_after reset p)))
  ∧ ∀ module_dir,
      buttons_released
        (events (state_after (GPIOController.__init__ module_dir) (world p))).
Proof.
  intros Hreleased.
  assert (∀ target_mode,
            buttons_released
              (events (world (state_after (set_mode target_mode) p)))) as Hset.
  { intros target_mode.
    destruct (MODE_PRESS_COUNT_range target_mode) as (target & Ht & _).
    rewrite (set_mode_events _ _ _ Ht).
    apply buttons_released_app; [done|]. intros pin level.
    apply pin_level_loop. }
  split; [|split; [|split; [exact Hset|split]]].
  - intros color. rewrite press_color_switch_events.
    apply buttons_released_app; [done|]. intros pin level.
    rewrite pin_level_pulse. destruct (_ && _); [by right | by left].
  - intros count. rewrite press_mode_switch_events.
    apply buttons_released_app; [done|]. intros pin level.
    apply pin_level_loop.
  - rewrite reset_events. apply Hset.
  - intros module_dir.
    destruct (init_run module_dir (world p)) as (c & z & l & _ & _ & _ & _ & Hrun).
    destruct (load_state_frame
                (StateManager.__init__ module_dir "state.json") (world p))
      as (_ & Hevents & _).
    unfold state_after at 1. rewrite Hrun. cbn [snd].
    unfold emit_all. cbn [events]. rewrite Hevents.
    apply buttons_released_app; [done|]. intros pin level.
    apply pin_level_setup.
Qed.

Lemma buttons_are_released_after_every_call_witness :
  let p := mkProcess (mkController example_manager 0 None)
             (mkWorld ∅ [] [] true (1700000000 # 1) "2025-01-01T12:00:00") in
  buttons_released (events (world p))
  ∧ pin_level PIN_SW4_MODE None
      (events (world (state_after (set_mode WHITE_MODE) p)))
    = Some HIGH.
Proof.
  intros p.
  assert (buttons_released (events (world p))) as Hreleased
    by (intros pin; discriminate).
  split; [exact Hreleased|].
  destruct (buttons_are_released_after_every_call p Hreleased)
    as (_ & _ & Hset & _).
  pose proof (Hset WHITE_MODE PIN_SW4_MODE) as Hpin.
  vm_compute. reflexivity.
Defined.

(** X23. The short delay comes between the presses only: a call of
    [press_mode_switch(count)] with [count >= 1] sleeps 0.02 s exactly
    [count - 1] times, and the last thing it does to the trace is the
    sleep that ends its last press (the 0.1 s of settling with the GPIO,
    the 0.2 s of the press in simulation mode), not a delay. *)
Theorem inter_press_delays (count : Z) (p : Process) :
  1 ≤ count →
  let evs := events (world (state_after (press_mode_switch count) p)) in
  sleeps_of (1 # 50) evs
  = (sleeps_of (1 # 50) (events (world p)) + Z.to_nat (count - 1))%nat
  ∧ last evs
    = Some (TimeSleep (if GPIO_AVAILABLE (world p) then 1 # 10 else 1 # 5)).
Proof.
  intros Hcount evs. unfold evs. rewrite press_mode_switch_events. split.
  - rewrite sleeps_of_app, sleeps_of_gap_loop. f_equal. lia.
  - destruct (Z.to_nat count) as [|n] eqn:Hn; [lia|].
    rewrite last_app, last_loop by lia. done.
Qed.

Lemma inter_press_delays_witness :
  let p := example_process 3 None [] in
  1 ≤ 4
  ∧ sleeps_of (1 # 50) (events (world (state_after (press_mode_switch 4) p)))
    = 3%nat.
Proof.
  intros p.
  assert (1 ≤ 4) as Hcount by lia.
  split; [exact Hcount|].
  destruct (inter_press_delays 4 p Hcount) as [Hdelays _].
  rewrite Hdelays. reflexivity.
Defined.

(** ** The cycle of the modes *)

(** X24. The number of presses [set_mode] computes is the least one: from
    a position in 0..6 no smaller number of cyclic advances ends on the
    target. *)
Theorem presses_needed_is_minimal (current target : Z) (k : nat) :
  0 ≤ current ≤ 6 → 1 ≤ target ≤ 6 →
  Z.of_nat k < presses_needed current target →
  Nat.iter k cyclic_advance current ≠ target.
Proof.
  intros Hc Ht Hk.
  destruct k as [|k]; simpl Nat.iter.
  { intros ->. unfold presses_needed in Hk.
    destruct (Z.eqb_spec target 0); [lia|].
    rewrite Z.eqb_refl in Hk. lia. }
  change (Nat.iter (S k) cyclic_advance current ≠ target).
  rewrite cyclic_advance_iter_S.
  unfold presses_needed in Hk.
  destruct (Z.eqb_spec current 0) as [->|Hne].
  { rewrite Z.mod_small by lia. lia. }
  destruct (Z.eqb_spec target current) as [->|Hne']; [lia|].
  destruct (Z.gtb_spec target current).
  - rewrite Z.mod_small by lia. lia.
  - destruct (decide (current + Z.of_nat k < 6)).
    + rewrite Z.mod_small by lia. lia.
    + replace (current + Z.of_nat k)
        with (current + Z.of_nat k - 6 + 1 * 6) by lia.
      rewrite Z.mod_add by lia. rewrite Z.mod_small by lia. lia.
Qed.

Lemma presses_needed_is_minimal_witness :
  (0 ≤ 5 ≤ 6 ∧ 1 ≤ 2 ≤ 6 ∧ Z.of_nat 2 < presses_needed 5 2)
  ∧ Nat.iter 2 cyclic_advance 5 ≠ 2.
Proof.
  assert (0 ≤ 5 ≤ 6) as Hc by lia.
  assert (1 ≤ 2 ≤ 6) as Ht by lia.
  assert (Z.of_nat 2 < presses_needed 5 2) as Hk by (vm_compute; reflexivity).
  split; [done|].
  exact (presses_needed_is_minimal 5 2 2 Hc Ht Hk).
Defined.

(** X25. Mode presses add up and the cycle has six positions: pressing
    [a] times and then [b] times leaves the controller where pressing
    [a + b] times does, and six more presses lead, from a position in
    1..6, to the same position. *)
Theorem mode_presses_compose (a b : Z) (p : Process) :
  0 ≤ a → 0 ≤ b →
  mode_position
    (state_after (press_mode_switch b) (state_after (press_mode_switch a) p))
  = mode_position (state_after (press_mode_switch (a + b)) p)
  ∧ (1 ≤ mode_position p ≤ 6 →
     mode_position (state_after (press_mode_switch (a + 6)) p)
     = mode_position (state_after (press_mode_switch a) p)).
Proof.
  intros Ha Hb. rewrite !press_mode_switch_position. unfold positions_after.
  rewrite press_mode_switch_position. unfold positions_after. split.
  - replace (Z.to_nat (a + b)) with (Z.to_nat b + Z.to_nat a)%nat by lia.
    by rewrite Nat.iter_add.
  - intros Hp.
    replace (Z.to_nat (a + 6)) with (Z.to_nat a + 6)%nat by lia.
    rewrite Nat.iter_add. f_equal.
    change (Nat.iter 6 cyclic_advance (mode_position p))
      with (Nat.iter (S 5) cyclic_advance (mode_position p)).
    rewrite cyclic_advance_iter_S.
    replace (mode_position p + Z.of_nat 5)
      with (mode_position p - 1 + 1 * 6) by lia.
    rewrite Z.mod_add by lia. rewrite Z.mod_small by lia. lia.
Qed.

Lemma mode_presses_compose_witness :
  let p := example_process 4 None [] in
  (0 ≤ 3 ∧ 0 ≤ 5)
  ∧ mode_position
      (state_after (press_mode_switch 5) (state_after (press_mode_switch 3) p))
    = mode_position (state_after (press_mode_switch (3 + 5)) p).
Proof.
  intros p.
  assert (0 ≤ 3) as Ha by lia.
  assert (0 ≤ 5) as Hb by lia.
  split; [done|].
  exact (proj1 (mode_presses_compose 3 5 p Ha Hb)).
Defined.

(** ** The time a call sleeps *)

Section Time.

Lemma time_slept_app (evs1 evs2 : list io_event) :
  (time_slept (evs1 ++ evs2) == time_slept evs1 + time_slept evs2)%Q.
Proof.
  induction evs1 as [|[pin level|q] evs1 IH].
  - change (time_slept evs2 == 0 + time_slept evs2)%Q. ring.
  - exact IH.
  - change (q + time_slept (evs1 ++ evs2)
            == q + time_slept evs1 + time_slept evs2)%Q.
    rewrite IH. ring.
Qed.

Lemma time_slept_pulse (gpio : bool) (pin : Z) :
  (time_slept (pulse_events gpio pin default_duration)
   == if gpio then 3 # 10 else 1 # 5)%Q.
Proof. by destruct gpio. Qed.

Lemma time_slept_loop (gpio : bool) (count : Z) (n : nat) (i : Z) :
  (time_slept (press_loop_events gpio count n i)
   == inject_Z (Z.of_nat n) * (if gpio then 3 # 10 else 1 # 5)
      + inject_Z (Z.max 0 (Z.min (i + Z.of_nat n) (count - 1) - i)) * (1 # 50))%Q.
Proof.
  revert i. induction n as [|n IH]; intros i.
  - replace (Z.max 0 (Z.min (i + Z.of_nat 0) (count - 1) - i)) with 0 by lia.
    change (0 == inject_Z 0 * (if gpio then 3 # 10 else 1 # 5)
                 + inject_Z 0 * (1 # 50))%Q.
    ring.
  - cbn [press_loop_events].
    rewrite !time_slept_app, time_slept_pulse, IH.
    replace (Z.of_nat (S n)) with (Z.of_nat n + 1) by lia.
    destruct (Z.ltb_spec i (count - 1)).
    + replace (Z.max 0 (Z.min (i + (Z.of_nat n + 1)) (count - 1) - i))
        with (Z.max 0 (Z.min (i + 1 + Z.of_nat n) (count - 1) - (i + 1)) + 1)
        by lia.
      rewrite !inject_Z_plus.
      change (time_slept [TimeSleep (1 # 50)]) with ((1 # 50) + 0)%Q.
      change (inject_Z 1) with 1%Q. ring.
    + replace (Z.max 0 (Z.min (i + (Z.of_nat n + 1)) (count - 1) - i))
        with (Z.max 0 (Z.min (i + 1 + Z.of_nat n) (count - 1) - (i + 1)))
        by lia.
      rewrite !inject_Z_plus.
      change (time_slept []) with 0%Q.
      change (inject_Z 1) with 1%Q. ring.
Qed.

End Time.

(** X26. The time a call of [press_mode_switch(count)], [count >= 1],
    sleeps: with the GPIO, 0.3 s for each press (0.2 s held and 0.1 s to
    settle) and 0.02 s between two presses; in simulation mode only 0.2 s
    for each press, and the same 0.02 s between two. *)
Theorem press_mode_switch_time_slept (count : Z) (p : Process) :
  1 ≤ count →
  (time_slept (events (world (state_after (press_mode_switch count) p)))
   == time_slept (events (world p))
      + inject_Z count * (if GPIO_AVAILABLE (world p) then 3 # 10 else 1 # 5)
      + inject_Z (count - 1) * (1 # 50))%Q.
Proof.
  intros Hcount.
  rewrite press_mode_switch_events, time_slept_app, time_slept_loop.
  replace (Z.of_nat (Z.to_nat count)) with count by lia.
  replace (Z.max 0 (Z.min (0 + count) (count - 1) - 0)) with (count - 1) by lia.
  ring.
Qed.

Lemma press_mode_switch_time_slept_witness :
  let p := example_process 3 None [] in
  1 ≤ 4
  ∧ (time_slept (events (world (state_after (press_mode_switch 4) p)))
     == 43 # 50)%Q.
Proof.
  intros p.
  assert (1 ≤ 4) as Hcount by lia.
  split; [exact Hcount|].
  rewrite (press_mode_switch_time_slept 4 p Hcount).
  reflexivity.
Defined.

(** ** The endpoints *)

Section Endpoints.

(** A handler built by [guarded_call] around a method that returns. *)
Lemma guarded_call_ok (method : M Process (gmap string pyval))
    (failure : string) (s : Server) (c : GPIOController)
    (body : gmap string pyval) :
  controller s = Some c →
  outcome_of method (mkProcess c (server_world s)) = Return body →
  Api.guarded_call method failure s
  = (HttpOk body,
     mkServer
       (Some (self (state_after method (mkProcess c (server_world s)))))
       (world (state_after method (mkProcess c (server_world s))))).
Proof.
  intros Hc Hbody. unfold Api.guarded_call, outcome_of, state_after in *.
  rewrite Hc. destruct (method _) as [o p']. simpl in *. by subst o.
Qed.

End Endpoints.



(** X28. With a controller, whatever its state, the handlers of [/color],
    [/mode] and [/reset] never answer 500: the methods they call never
    raise, so each answers with the record of its method.  The handler of
    [/mode/press] does the same for every count within the bounds of its
    request model, 1..6. *)
Theorem endpoints_never_fail (s : Server) (c : GPIOController) :
  controller s = Some c →
  let p := mkProcess c (server_world s) in
  (∀ color, ∃ body s',
     Api.set_color color s = (HttpOk body, s')
     ∧ outcome_of (press_color_switch color) p = Return body
     ∧ controller s' = Some (self (state_after (press_color_switch color) p)))
  ∧ (∀ mode, ∃ body s',
       Api.set_mode mode s = (HttpOk body, s')
       ∧ outcome_of (set_mode mode) p = Return body
       ∧ controller s' = Some (self (state_after (set_mode mode) p)))
  ∧ (∃ body s',
       Api.reset_system s = (HttpOk body, s')
       ∧ outcome_of reset p = Return body
       ∧ controller s' = Some (self (state_after reset p)))
  ∧ (∀ count, Api.ModePressRequest_valid count = true →
       ∃ body s',
         Api.press_mode_button count s = (HttpOk body, s')
         ∧ outcome_of (press_mode_switch count) p = Return body
         ∧ controller s'
           = Some (self (state_after (press_mode_switch count) p))).
Proof.
  intros Hc p. split; [|split; [|split]].
  - intros color.
    assert (∃ body, outcome_of (press_color_switch color) p = Return body)
      as [body Hbody].
    { unfold outcome_of. rewrite press_color_switch_run. by eexists. }
    eexists body, _. split; [by apply guarded_call_ok|]. done.
  - intros mode.
    destruct (set_mode_frame mode p) as ([body Hbody] & _).
    eexists body, _. split; [by apply guarded_call_ok|]. done.
  - assert (∃ body, outcome_of reset p = Return body) as [body Hbody].
    { unfold outcome_of. rewrite reset_run. by eexists. }
    eexists body, _. split; [by apply guarded_call_ok|]. done.
  - intros count Hvalid.
    unfold Api.ModePressRequest_valid in Hvalid.
    apply andb_true_iff in Hvalid as [Hlow _].
    apply Z.leb_le in Hlow.
    destruct (press_mode_switch_returns count p Hlow) as (m & Hm).
    assert (∃ body, outcome_of (press_mode_switch count) p = Return body)
      as [body Hbody].
    { unfold outcome_of. rewrite (press_mode_switch_run _ _ _ Hm). by eexists. }
    eexists body, _. split; [by apply guarded_call_ok|]. done.
Qed.

Lemma endpoints_never_fail_witness :
  let s := mkServer (Some (mkController example_manager 0 None))
             (example_world [true]) in
  ∃ body s', Api.press_mode_button 6 s = (HttpOk body, s')
             ∧ body !! "current_mode" = Some (PyStr "off").
Proof.
  intros s.
  assert (controller s = Some (mkController example_manager 0 None)) as Hc
    by reflexivity.
  destruct (endpoints_never_fail s _ Hc) as (_ & _ & _ & Hpress).
  destruct (Hpress 6 eq_refl) as (body & s' & Hrun & Hbody & _).
  exists body, s'. split; [exact Hrun|].
  vm_compute in Hbody. injection Hbody as <-. vm_compute. reflexivity.
Defined.

(** X29. The listings of the API agree with the controller: for every mode
    the entry of [/modes] at the place of its press count carries the
    value of the mode and that press count, there are as many entries as
    modes, and for every colour the entry of [/colors] carries the value
    of the colour and the pin the controller pulses for it. *)
Theorem listings_agree_with_controller :
  (∃ entries,
     Api.list_modes !! "modes" = Some (PyList entries)
     ∧ length entries = length LightMode_members
     ∧ ∀ mode count,
         MODE_PRESS_COUNT !! mode = Some count →
         ∃ description,
           entries !! Z.to_nat (count - 1)
           = Some (Api.mode_entry (value mode) count description))
  ∧ ∃ entries,
      Api.list_colors !! "colors" = Some (PyList entries)
      ∧ length entries = length LightColor_members
      ∧ ∀ color, ∃ i switch,
          entries !! i = Some (Api.color_entry (value color) switch
                                 (color_pin color)).
Proof.
  split.
  - eexists. split; [reflexivity|]. split; [reflexivity|].
    intros mode count Hcount.
    destruct mode; injection Hcount as <-; eexists; reflexivity.
  - eexists. split; [reflexivity|]. split; [reflexivity|].
    intros color.
    destruct color; [exists 0%nat | exists 1%nat | exists 2%nat];
      eexists; reflexivity.
Qed.

